(** * Gamified GitHub/Discord bot: the activity-to-score reconciliation engine

    A shallow embedding of [src/gamified_bot.py] (class
    [GamifiedGitHubDiscordBot]) and of its stripped-down sibling
    [src/demo.py], followed by the properties of the reconciliation pass
    ([poll_github_once]), of the badge rules ([update_badges]) and of the
    text-generation call ([call_gemini]).

    Conventions of the embedding:
    - Python [int] is [Z]; [len(...)] is [Z.of_nat (length ...)].
    - A timezone-aware [datetime] is the number of microseconds since
      1970-01-01T00:00:00Z, a [Z]; a [timedelta] is a [Z] as well.
    - A call that may raise returns a [result]; an exception is observed by
      the source only through [str(e)], so it is carried as that string.
    - The [user_data] dict is an association list in insertion order (the
      order [dict.items()] iterates in); the SQLite table [users], keyed by
      its primary key, is a [gmap].
    - Mutation of the per-user dict [data] is explicit record passing. Every
      record is created with a fresh [badges] list ([link_github],
      [load_user_data]), so no two users alias one list. *)

From Stdlib Require Import ZArith Lia.
From stdpp Require Import base option list sorting gmap strings pretty.

Local Open Scope Z_scope.

(** ** Exceptions *)

Inductive result (A : Type) : Type :=
| Ok (a : A)
| Raise (msg : string).
Arguments Ok {A} a.
Arguments Raise {A} msg.

Definition result_bind {A B} (r : result A) (k : A → result B) : result B :=
  match r with
  | Ok a => k a
  | Raise msg => Raise msg
  end.

Notation "x ←! r ; k" := (result_bind r (λ x, k))
  (at level 20, r at level 100, k at level 200, right associativity,
   format "x  ←!  r ;  '/' k").

(** ** Data model *)

Definition time := Z.

(** The five keys of a [user_data] entry. *)
Record UserData := mkUserData {
  github_user : string;
  points : Z;
  badges : list string;
  current_challenge : option string;
  last_activity_check : time
}.

Definition set_points (p : Z) (d : UserData) : UserData :=
  mkUserData (github_user d) p (badges d) (current_challenge d)
             (last_activity_check d).
Definition set_badges (b : list string) (d : UserData) : UserData :=
  mkUserData (github_user d) (points d) b (current_challenge d)
             (last_activity_check d).
Definition set_current_challenge (c : option string) (d : UserData) : UserData :=
  mkUserData (github_user d) (points d) (badges d) c (last_activity_check d).
Definition set_last_activity_check (t : time) (d : UserData) : UserData :=
  mkUserData (github_user d) (points d) (badges d) (current_challenge d) t.

(** Python truthiness of [data['current_challenge']]: [None] and the empty
    string are false, every other string is true. *)
Definition truthy (c : option string) : bool :=
  match c with
  | None => false
  | Some s => negb (bool_decide (s = ""))
  end.

(** ** The repository client, as [poll_github_once] uses it

    [self.repo] is a PyGithub object; the pass reads it through three
    calls, each of which is a network request that may raise. *)

Record IssueComment := mkIssueComment {
  comment_user_login : string;     (* c.user.login *)
  comment_updated_at : time
}.

Record Review := mkReview {
  review_user_login : string;      (* r.user.login *)
  submitted_at : time              (* r.submitted_at *)
}.

Record PullRequest := mkPullRequest {
  get_reviews : result (list Review)      (* list(pr.get_reviews()) *)
}.

Record Repository := mkRepository {
  (* self.repo.get_commits(author=a, since=s).totalCount *)
  get_commits_totalCount : string → time → result Z;
  (* list(self.repo.get_issues_comments(since=s)) *)
  get_issues_comments : time → result (list IssueComment);
  (* self.repo.get_pulls(state='all', sort='updated', direction='desc') *)
  get_pulls : result (list PullRequest)
}.

Definition len {A} (l : list A) : Z := Z.of_nat (length l).

(** [user_comments = [c for c in comments if c.user.login == gh_user]] *)
Definition user_comments (gh_user : string) (comments : list IssueComment)
  : list IssueComment :=
  filter (λ c, comment_user_login c = gh_user) comments.

(** [user_reviews = [r for r in reviews
                     if r.user.login == gh_user and r.submitted_at > last_check]] *)
Definition user_reviews (gh_user : string) (last_check : time)
    (reviews : list Review) : list Review :=
  filter (λ r, review_user_login r = gh_user ∧ last_check < submitted_at r)
         reviews.

(** The body of [for pr in prs[:10]], threading [new_points]. *)
Fixpoint review_loop (gh_user : string) (last_check : time)
    (prs : list PullRequest) (new_points : Z) : result Z :=
  match prs with
  | [] => Ok new_points
  | pr :: prs' =>
      reviews ←! get_reviews pr;
      review_loop gh_user last_check prs'
                  (new_points + len (user_reviews gh_user last_check reviews) * 15)
  end.

(** Lines 206-220 of [gamified_bot.py] (119-132 of [demo.py]): the value of
    [new_points] when the fetches go through, the first exception
    otherwise. With [self.repo = None] the first attribute access raises. *)
Definition fetch_new_points (repo : option Repository) (gh_user : string)
    (last_check : time) : result Z :=
  match repo with
  | None => Raise "'NoneType' object has no attribute 'get_commits'"
  | Some repo =>
      let new_points := 0 in
      totalCount ←! get_commits_totalCount repo gh_user last_check;
      let new_points := new_points + totalCount * 10 in
      comments ←! get_issues_comments repo last_check;
      let new_points := new_points + len (user_comments gh_user comments) * 5 in
      prs ←! get_pulls repo;
      review_loop gh_user last_check (take 10 prs) new_points
  end.

(** ** Badge rules: [update_badges] *)

Definition award (threshold : Z) (tag : string) (points : Z)
    (badges : list string) : list string :=
  if bool_decide (threshold ≤ points) && negb (bool_decide (tag ∈ badges))
  then badges ++ [tag]
  else badges.

Definition update_badges (user_data : UserData) : UserData :=
  let points := points user_data in
  let badges := badges user_data in
  let badges := award 10 "Bronze Collaborator" points badges in
  let badges := award 50 "Silver Collaborator" points badges in
  let badges := award 100 "Gold Collaborator" points badges in
  set_badges badges user_data.

(** ** One user of one pass: lines 221-228 of [gamified_bot.py] *)

Definition complete_challenge (new_points : Z) (data : UserData) : UserData :=
  if truthy (current_challenge data) && bool_decide (0 < new_points)
  then set_current_challenge None (set_points (points data + 20) data)
  else data.

Definition apply_new_points (now : time) (new_points : Z) (data : UserData)
  : UserData :=
  let data := set_points (points data + new_points) data in
  let data := update_badges data in
  let data := complete_challenge new_points data in
  set_last_activity_check now data.

(** ** Persistence and logging

    A row of the table [users] carries the same five fields as the
    in-memory entry ([json.dumps] of the badge list and [isoformat] of the
    timestamp are injective encodings and are not modelled), so the table
    is a finite map from [discord_id] to [UserData]. *)

Inductive LogRecord :=
| LogInfo (msg : string)
| LogWarning (msg : string)
| LogError (msg : string).

Record Storage := mkStorage {
  users_table : gmap Z UserData;     (* the file user_data.db *)
  log : list LogRecord               (* the file bot.log *)
}.

Definition logger (r : LogRecord) (io : Storage) : Storage :=
  mkStorage (users_table io) (log io ++ [r]).

Section Bot.

(** What SQLite does with the [INSERT OR REPLACE] for a given key:
    [None] when it commits, [Some msg] when it raises. *)
Variable sqlite_error : Z → option string.

Definition save_user_data (discord_id : Z) (data : UserData) (io : Storage)
  : Storage :=
  match sqlite_error discord_id with
  | None =>
      logger (LogInfo ("Saved data for Discord ID " +:+ pretty discord_id))
             (mkStorage (<[discord_id := data]> (users_table io)) (log io))
  | Some msg =>
      logger (LogError ("Failed to save user data for " +:+ pretty discord_id
                        +:+ ": " +:+ msg)) io
  end.

(** The [try]/[except] of the loop body, lines 204-232. *)
Definition poll_user (repo : option Repository) (now : time)
    (disc_id : Z) (data : UserData) (io : Storage) : UserData * Storage :=
  let gh_user := github_user data in
  let last_check := last_activity_check data in
  match fetch_new_points repo gh_user last_check with
  | Ok new_points =>
      let data := apply_new_points now new_points data in
      let io := save_user_data disc_id data io in
      (data, logger (LogInfo ("Updated stats for " +:+ gh_user +:+ ": "
                              +:+ pretty new_points +:+ " new points")) io)
  | Raise msg =>
      (data, logger (LogError ("Error polling GitHub for " +:+ gh_user
                               +:+ ": " +:+ msg)) io)
  end.

(** [for disc_id, data in self.user_data.items()] *)
Fixpoint poll_loop (repo : option Repository) (now : time)
    (items : list (Z * UserData)) (io : Storage)
  : list (Z * UserData) * Storage :=
  match items with
  | [] => ([], io)
  | (disc_id, data) :: items' =>
      let '(data', io) := poll_user repo now disc_id data io in
      let '(items'', io) := poll_loop repo now items' io in
      ((disc_id, data') :: items'', io)
  end.

Record Bot := mkBot {
  repo : option Repository;
  user_data : list (Z * UserData);
  last_global_check : time;
  storage : Storage
}.

(** [now] is the one reading of the clock at line 202. *)
Definition poll_github_once (now : time) (self : Bot) : Bot :=
  let io := logger (LogInfo "Starting GitHub poll") (storage self) in
  let '(items, io) := poll_loop (repo self) now (user_data self) io in
  let self := mkBot (repo self) items now io in
  mkBot (repo self) (user_data self) (last_global_check self)
        (logger (LogInfo "GitHub poll completed") (storage self)).

End Bot.

(** ** Dictionaries *)

Fixpoint dict_get {A} (k : Z) (items : list (Z * A)) : option A :=
  match items with
  | [] => None
  | (k', v) :: items' => if bool_decide (k' = k) then Some v else dict_get k items'
  end.

(** [d[k] = v]: an existing key keeps its position, a new key goes last. *)
Fixpoint dict_set {A} (k : Z) (v : A) (items : list (Z * A)) : list (Z * A) :=
  match items with
  | [] => [(k, v)]
  | (k', v') :: items' =>
      if bool_decide (k' = k) then (k, v) :: items'
      else (k', v') :: dict_set k v items'
  end.

(** ** The rows of the table, as [load_user_data] reads them

    A row has six TEXT or INTEGER columns. [row_badges] is [None] for a
    NULL or empty text and [Some l] for the JSON text of the list [l];
    [row_last_activity_check] is [None] for a NULL or empty text and
    [Some t] for the ISO text of [t]. *)

Record Row := mkRow {
  row_discord_id : Z;
  row_github_user : string;
  row_points : Z;
  row_badges : option (list string);
  row_current_challenge : option string;
  row_last_activity_check : option time
}.

(** The row that [save_user_data] writes for an entry. *)
Definition row_of (entry : Z * UserData) : Row :=
  mkRow entry.1 (github_user entry.2) (points entry.2) (Some (badges entry.2))
        (current_challenge entry.2) (Some (last_activity_check entry.2)).

(** [for row in c.fetchall()], threading [user_data]. [last_global_check]
    is the attribute of that name, [None] while it has not been assigned:
    reading it then raises, and the [except] of [load_user_data] logs the
    error and returns what was loaded so far. *)
Fixpoint load_rows (last_global_check : option time) (rows : list Row)
    (user_data : list (Z * UserData)) : list (Z * UserData) * LogRecord :=
  match rows with
  | [] => (user_data, LogInfo "User data loaded from database")
  | row :: rows' =>
      let badges := default [] (row_badges row) in
      let last_check :=
        match row_last_activity_check row with
        | Some t => Some t
        | None => last_global_check
        end in
      match last_check with
      | Some t =>
          load_rows last_global_check rows'
            (dict_set (row_discord_id row)
               (mkUserData (row_github_user row) (row_points row) badges
                           (row_current_challenge row) t)
               user_data)
      | None =>
          (user_data,
           LogError "Failed to load user data: 'GamifiedGitHubDiscordBot' object has no attribute 'last_global_check'")
      end
  end.

Definition load_user_data (last_global_check : option time) (rows : list Row)
  : list (Z * UserData) * LogRecord :=
  load_rows last_global_check rows [].

(** ** Construction and the chat commands that write the state *)

(** What [c.fetchall()] returns for [SELECT * FROM users]: the rows of the
    table. The query fixes no order; the rows come in the order of
    [map_to_list]. *)
Definition fetchall (io : Storage) : list Row :=
  row_of <$> map_to_list (users_table io).

(** [__init__] of [gamified_bot.py], once it has returned: [repo] is
    [None]; [load_user_data] has run on the rows of the table while
    [last_global_check] was still unassigned (line 47 precedes line 48),
    and has left its entries and its log record; then
    [last_global_check = datetime.now(timezone.utc) - timedelta(seconds=time.time())],
    where [clock_now] and [clock_time] are the two readings of the system
    clock, the second one after rounding to the microsecond. *)
Definition init (clock_now clock_time : time) (io : Storage) : Bot :=
  let loaded := load_user_data None (fetchall io) in
  mkBot None loaded.1 (clock_now - clock_time)
        (logger (LogInfo "GitHub API connection validated")
           (logger loaded.2
              (logger (LogInfo "Database initialized successfully") io))).

(** [!set_repo]: [looked_up] is what [self.github.get_repo(repo_name)] did. *)
Definition set_repo (repo_name : string) (looked_up : result Repository)
    (self : Bot) : Bot :=
  match looked_up with
  | Ok r =>
      mkBot (Some r) (user_data self) (last_global_check self)
            (logger (LogInfo ("Set repository to " +:+ repo_name)) (storage self))
  | Raise msg =>
      mkBot (repo self) (user_data self) (last_global_check self)
            (logger (LogError ("Error setting repository " +:+ repo_name
                               +:+ ": " +:+ msg)) (storage self))
  end.

(** [!link_github]; [author_id] is [ctx.author.id], [author_name] is
    [ctx.author.name]. *)
Definition link_github (sqlite_error : Z → option string)
    (author_id : Z) (author_name github_username : string) (self : Bot) : Bot :=
  match repo self with
  | None => self
  | Some _ =>
      let data := mkUserData github_username 0 [] None (last_global_check self) in
      let io := save_user_data sqlite_error author_id data (storage self) in
      mkBot (repo self) (dict_set author_id data (user_data self))
            (last_global_check self)
            (logger (LogInfo ("Linked Discord user " +:+ author_name
                              +:+ " to GitHub user " +:+ github_username)) io)
  end.

(** ** The text-generation call: [call_gemini]

    [urlopen prompt attempt] is what the request of the given attempt does,
    from building the request to extracting and stripping the first
    candidate's text: the text, or the exception raised on the way. The
    requests sent and the [time.sleep] calls are recorded in a trace; the
    log lines are left out. *)

(** ["429" in str(e)] *)
Fixpoint contains (needle haystack : string) : bool :=
  String.prefix needle haystack ||
  match haystack with
  | EmptyString => false
  | String _ haystack' => contains needle haystack'
  end.

Inductive GeminiEvent :=
| Request (attempt : nat)
| Sleep (seconds : Z).

Fixpoint gemini_loop (send : nat → result string) (range : list nat)
    (trace : list GeminiEvent) : string * list GeminiEvent :=
  match range with
  | [] => ("Error: Gemini API rate limit exceeded.", trace)
  | attempt :: range' =>
      match send attempt with
      | Ok response_text => (response_text, trace ++ [Request attempt])
      | Raise e =>
          if contains "429" e
          then gemini_loop send range'
                 (trace ++ [Request attempt; Sleep (2 ^ Z.of_nat attempt)])
          else ("Error calling AI: " +:+ e, trace ++ [Request attempt])
      end
  end.

Definition call_gemini (urlopen : string → nat → result string)
    (prompt : string) : string * list GeminiEvent :=
  gemini_loop (urlopen prompt) (seq 0%nat 3%nat) [].

Definition generate_challenge (urlopen : string → nat → result string)
    (activity : string) : string :=
  let prompt :=
    "Based on this GitHub user activity: " +:+ activity +:+
    ". Generate a personalized, engaging challenge to boost collaboration, e.g., 'Review one PR to earn a collaborator badge'. Keep it short." in
  (call_gemini urlopen prompt).1.

(** [!my_challenge]; [activity] is the summary string returned by
    [get_user_activity]. *)
Definition my_challenge (sqlite_error : Z → option string)
    (urlopen : string → nat → result string)
    (author_id : Z) (author_name activity : string) (self : Bot) : Bot :=
  match repo self, dict_get author_id (user_data self) with
  | Some _, Some user_info =>
      let challenge := generate_challenge urlopen activity in
      let user_info := set_current_challenge (Some challenge) user_info in
      mkBot (repo self) (dict_set author_id user_info (user_data self))
            (last_global_check self)
            (logger (LogInfo ("Generated challenge for " +:+ author_name
                              +:+ ": " +:+ challenge))
                    (save_user_data sqlite_error author_id user_info
                                    (storage self)))
  | _, _ => self
  end.

(** ** The sibling [demo.py]

    Same entries, same scoring and badge code, but no table, no log, no
    [try] around the loop body and a single request in [call_gemini]. An
    exception raised while a user is fetched leaves [poll_github_once]
    through the loop: the entries already visited keep their updates, the
    others and [last_global_check] are not touched. *)
Module Demo.

Record Bot := mkBot {
  repo : option Repository;
  user_data : list (Z * UserData);
  last_global_check : time
}.

Fixpoint poll_loop (repo : option Repository) (now : time)
    (items : list (Z * UserData)) : list (Z * UserData) * option string :=
  match items with
  | [] => ([], None)
  | (disc_id, data) :: items' =>
      match fetch_new_points repo (github_user data)
                             (last_activity_check data) with
      | Ok new_points =>
          let '(items'', raised) := poll_loop repo now items' in
          ((disc_id, apply_new_points now new_points data) :: items'', raised)
      | Raise msg => ((disc_id, data) :: items', Some msg)
      end
  end.

(** The state the call leaves behind, and the exception that escaped it. *)
Definition poll_github_once (now : time) (self : Bot) : Bot * option string :=
  let '(items, raised) := poll_loop (repo self) now (user_data self) in
  match raised with
  | None => (mkBot (repo self) items now, None)
  | Some msg => (mkBot (repo self) items (last_global_check self), Some msg)
  end.

Definition call_gemini (urlopen : string → nat → result string)
    (prompt : string) : string * list GeminiEvent :=
  match urlopen prompt 0%nat with
  | Ok response_text => (response_text, [Request 0%nat])
  | Raise e => ("Error calling AI: " +:+ e, [Request 0%nat])
  end.

End Demo.

(** ** A repository given by its events

    The PyGithub client is not part of the sources, so the meaning of its
    [since=] argument has to come from elsewhere. *)

Record Commit := mkCommit {
  commit_author_login : string;
  commit_date : time
}.

Record History := mkHistory {
  commits : list Commit;
  issue_comments : list IssueComment;
  pulls : list (list Review)     (* most recently updated first *)
}.

(** Modelled from the spec: the repository-data client behind [self.repo]
    (PyGithub) is missing. Section 4.4 gives its contract
    ([countCommits(handle, since)], [countIssueComments(since)], the list of
    pull requests with their reviews) and section 3 makes the [since]
    argument an exclusive lower bound of the query. No call fails. *)
Definition repo_of (h : History) : Repository :=
  mkRepository
    (λ author since,
       Ok (len (filter (λ c, commit_author_login c = author
                             ∧ since < commit_date c) (commits h))))
    (λ since, Ok (filter (λ c, since < comment_updated_at c) (issue_comments h)))
    (Ok ((λ reviews, mkPullRequest (Ok reviews)) <$> pulls h)).

(** ** The counts a pass observes

    [activity_counts] names the three numbers the pass turns into points:
    the commit count reported by the client, the number of issue comments
    by the user, and the number of reviews by the user, submitted after
    [last_check], on the first ten pull requests. It fails exactly where
    [fetch_new_points] does, with the same exception. *)

Fixpoint count_reviews (gh_user : string) (last_check : time)
    (prs : list PullRequest) : result Z :=
  match prs with
  | [] => Ok 0
  | pr :: prs' =>
      reviews ←! get_reviews pr;
      n ←! count_reviews gh_user last_check prs';
      Ok (len (user_reviews gh_user last_check reviews) + n)
  end.

Definition activity_counts (repo : option Repository) (gh_user : string)
    (last_check : time) : result (Z * Z * Z) :=
  match repo with
  | None => Raise "'NoneType' object has no attribute 'get_commits'"
  | Some repo =>
      c ←! get_commits_totalCount repo gh_user last_check;
      comments ←! get_issues_comments repo last_check;
      prs ←! get_pulls repo;
      r ←! count_reviews gh_user last_check (take 10 prs);
      Ok (c, len (user_comments gh_user comments), r)
  end.

Definition total_delta (counts : Z * Z * Z) : Z :=
  let '(c, m, r) := counts in 10 * c + 5 * m + 15 * r.

(** ** What a pass does to one entry

    [poll_data] is the in-memory effect of the loop body on the entry it
    visits; [poll_saved] is its effect on the entry's row. *)

Definition poll_data (repo : option Repository) (now : time) (data : UserData)
  : UserData :=
  match fetch_new_points repo (github_user data) (last_activity_check data) with
  | Ok new_points => apply_new_points now new_points data
  | Raise _ => data
  end.

Definition poll_saved (sqlite_error : Z → option string)
    (repo : option Repository) (now : time) (disc_id : Z) (data : UserData)
    (row : option UserData) : option UserData :=
  match fetch_new_points repo (github_user data) (last_activity_check data),
        sqlite_error disc_id with
  | Ok new_points, None => Some (apply_new_points now new_points data)
  | _, _ => row
  end.

(** ** Events of a history, by author and by time *)

(** The events stamped strictly after [t]. *)
Definition after (t : time) (h : History) : History :=
  mkHistory (filter (λ c, t < commit_date c) (commits h))
            (filter (λ c, t < comment_updated_at c) (issue_comments h))
            (filter (λ r, t < submitted_at r) <$> pulls h).

Definition commits_by (gh_user : string) (h : History) : list Commit :=
  filter (λ c, commit_author_login c = gh_user) (commits h).

Definition comments_by (gh_user : string) (h : History) : list IssueComment :=
  filter (λ c, comment_user_login c = gh_user) (issue_comments h).

(** The reviews by [gh_user] on the first [limit] pull requests. *)
Definition reviews_by (gh_user : string) (limit : nat) (h : History)
  : list Review :=
  filter (λ r, review_user_login r = gh_user) (concat (take limit (pulls h))).

(** What the events of [h] by [gh_user] that a pass can see are worth when
    each of them is counted once. *)
Definition history_value (gh_user : string) (h : History) : Z :=
  10 * len (commits_by gh_user h) + 5 * len (comments_by gh_user h)
  + 15 * len (reviews_by gh_user 10 h).

(** Every event of [h] is stamped after the epoch. *)
Definition after_epoch (h : History) : Prop :=
  after 0 h = h.

(** ** The life of the process before its first pass *)

Inductive Command :=
| SetRepo (repo_name : string) (looked_up : result Repository)
| LinkGithub (author_id : Z) (author_name github_username : string)
| MyChallenge (author_id : Z) (author_name activity : string).

Definition run_command (sqlite_error : Z → option string)
    (urlopen : string → nat → result string) (self : Bot) (c : Command) : Bot :=
  match c with
  | SetRepo repo_name looked_up => set_repo repo_name looked_up self
  | LinkGithub author_id author_name github_username =>
      link_github sqlite_error author_id author_name github_username self
  | MyChallenge author_id author_name activity =>
      my_challenge sqlite_error urlopen author_id author_name activity self
  end.

Definition run_commands (sqlite_error : Z → option string)
    (urlopen : string → nat → result string) (cs : list Command) (self : Bot)
  : Bot :=
  foldl (run_command sqlite_error urlopen) self cs.

(** ** Reading a trace of [call_gemini] *)

(** The exception of an attempt is the one the source takes for a rate
    limit. *)
Definition rate_limited (r : result string) : Prop :=
  match r with
  | Ok _ => False
  | Raise e => contains "429" e = true
  end.

(** [n] rate-limited attempts in a row: a request and a sleep of
    [2 ** attempt] seconds each. *)
Definition backoff (start n : nat) : list GeminiEvent :=
  flat_map (λ attempt, [Request attempt; Sleep (2 ^ Z.of_nat attempt)])
           (seq start n).


Definition sleeps (trace : list GeminiEvent) : list Z :=
  omap (λ ev, match ev with Request _ => None | Sleep s => Some s end) trace.

(** ** Concrete states used in the examples *)

Definition no_sqlite_error : Z → option string := λ _, None.
Definition empty_storage : Storage := mkStorage ∅ [].

Definition alice_history : History :=
  mkHistory [mkCommit "alice" 50; mkCommit "bob" 60; mkCommit "alice" 70]
            [mkIssueComment "alice" 55; mkIssueComment "bob" 56]
            [[mkReview "alice" 80; mkReview "bob" 81]; [mkReview "alice" 5]].

(** A repository on which every request for [bad_user] fails and every
    other request behaves as on [repo_of h]. *)
Definition failing_for (bad_user : string) (h : History) : Repository :=
  mkRepository
    (λ author since,
       if bool_decide (author = bad_user)
       then Raise "502 Server Error"
       else get_commits_totalCount (repo_of h) author since)
    (get_issues_comments (repo_of h))
    (get_pulls (repo_of h)).

Definition three_users : list (Z * UserData) :=
  [(1, mkUserData "alice" 0 [] None 10);
   (2, mkUserData "bob" 45 ["Bronze Collaborator"] (Some "Review one PR") 20);
   (3, mkUserData "carol" 7 [] None 30)].

(** The bot looking at the repository whose events are [h]. *)
Definition watching (h : History) (self : Bot) : Bot :=
  mkBot (Some (repo_of h)) (user_data self) (last_global_check self)
        (storage self).

(** One review, submitted at time 150. *)
Definition late_review_history : History :=
  mkHistory [] [] [[mkReview "alice" 150]].

(** One commit by bob, at time 50. *)
Definition one_commit_history : History :=
  mkHistory [mkCommit "bob" 50] [] [].

(** The service answers every request with HTTP 429. *)
Definition always_429 : string → nat → result string :=
  λ _ _, Raise "HTTP Error 429: Too Many Requests".


(** ** [!leaderboard]

    [sorted(self.user_data.items(), key=lambda x: x[1]['points'], reverse=True)]:
    Python's sort is stable and [reverse=True] keeps the entries of equal
    key in their original order, so the result is the one permutation in
    non-increasing order of points in which equal scores stay in dict
    order. It is computed here by insertion. *)

Fixpoint insert_by_points (x : Z * UserData) (l : list (Z * UserData))
  : list (Z * UserData) :=
  match l with
  | [] => [x]
  | y :: l' =>
      if bool_decide (points y.2 ≤ points x.2) then x :: y :: l'
      else y :: insert_by_points x l'
  end.

Definition sorted_by_points (items : list (Z * UserData)) : list (Z * UserData) :=
  foldr insert_by_points [] items.

(** [sep.join(l)] *)
Fixpoint join (sep : string) (l : list string) : string :=
  match l with
  | [] => ""
  | [x] => x
  | x :: l' => x +:+ sep +:+ join sep l'
  end.

Definition newline : string := String (Ascii.ascii_of_nat 10) EmptyString.

(** [', '.join(data['badges']) or 'None'] *)
Definition badges_text (badges : list string) : string :=
  let joined := join ", " badges in
  if bool_decide (joined = "") then "None" else joined.

Definition leaderboard_line (idx : Z) (name : string) (data : UserData) : string :=
  pretty idx +:+ ". " +:+ name +:+ " (@" +:+ github_user data
  +:+ ") - Points: " +:+ pretty (points data) +:+ " | Badges: "
  +:+ badges_text (badges data) +:+ newline.

(** [for idx, (disc_id, data) in enumerate(sorted_users, 1)], threading
    [lb_text]; [fetch_user disc_id] is the name of the Discord user, or the
    exception of the lookup. *)
Fixpoint leaderboard_loop (fetch_user : Z → result string) (idx : Z)
    (sorted_users : list (Z * UserData)) (lb_text : string) : result string :=
  match sorted_users with
  | [] => Ok lb_text
  | (disc_id, data) :: rest =>
      name ←! fetch_user disc_id;
      leaderboard_loop fetch_user (idx + 1) rest
                       (lb_text +:+ leaderboard_line idx name data)
  end.

(** The command: the text sent to the channel, or the exception that
    leaves the command before anything is sent; the log afterwards. *)
Definition leaderboard (fetch_user : Z → result string) (self : Bot)
  : result string * Bot :=
  match user_data self with
  | [] => (Ok "No users linked yet.", self)
  | _ =>
      let sorted_users := sorted_by_points (user_data self) in
      match leaderboard_loop fetch_user 1 sorted_users ("Leaderboard:" +:+ newline) with
      | Ok lb_text =>
          (Ok lb_text,
           mkBot (repo self) (user_data self) (last_global_check self)
                 (logger (LogInfo "Displayed leaderboard") (storage self)))
      | Raise msg => (Raise msg, self)
      end
  end.

(** ** The two triggers of a pass

    [poll_github_periodic] runs a pass every 300 seconds when [self.repo]
    is set; [!update_stats] runs one unconditionally. Between two passes the
    repository moves on: [tick_repo] is how the client answers during the
    pass of this tick. *)

Record Tick := mkTick {
  tick_manual : bool;                    (* !update_stats, else the timer *)
  tick_now : time;
  tick_sqlite : Z → option string;
  tick_repo : Repository
}.

Definition tick (self : Bot) (t : Tick) : Bot :=
  match repo self with
  | Some _ =>
      poll_github_once (tick_sqlite t) (tick_now t)
        (mkBot (Some (tick_repo t)) (user_data self) (last_global_check self)
               (storage self))
  | None =>
      if tick_manual t
      then poll_github_once (tick_sqlite t) (tick_now t) self
      else self
  end.

Definition run_ticks (ts : list Tick) (self : Bot) : Bot := foldl tick self ts.

(** The client never reports a negative number of commits. *)
Definition counts_commits (r : Repository) : Prop :=
  ∀ author since c, get_commits_totalCount r author since = Ok c → 0 ≤ c.

(** ** Memory and table *)

(** Every entry in memory is what its row holds. *)
Definition in_sync (self : Bot) : Prop :=
  ∀ k data, dict_get k (user_data self) = Some data →
            users_table (storage self) !! k = Some data.

(** The three rules of [update_badges]. *)
Definition badge_rules : list (Z * string) :=
  [(10, "Bronze Collaborator"); (50, "Silver Collaborator");
   (100, "Gold Collaborator")].

(** The seconds a call of [call_gemini] spends in [time.sleep]. *)
Definition total_sleep (trace : list GeminiEvent) : Z :=
  foldr Z.add 0 (sleeps trace).

(** An entry and a later state of it: the same GitHub user, at least the
    score, and the badge list extended at its end. *)
Definition grows (data data' : UserData) : Prop :=
  github_user data' = github_user data
  ∧ points data ≤ points data'
  ∧ badges data `prefix_of` badges data'.

(** What a tick does to an entry of the bot it finds. *)
Definition tick_data (self : Bot) (t : Tick) (data : UserData) : UserData :=
  match repo self with
  | Some _ => poll_data (Some (tick_repo t)) (tick_now t) data
  | None => data
  end.

(** The same client with another answer to [get_pulls]. *)
Definition with_pulls (prs : list PullRequest) (r : Repository) : Repository :=
  mkRepository (get_commits_totalCount r) (get_issues_comments r) (Ok prs).

(** A pull request whose reviews cannot be fetched. *)
Definition broken_pull : PullRequest := mkPullRequest (Raise "502 Server Error").

(** SQLite refuses every write. *)
Definition disk_full : Z → option string := λ _, Some "database or disk is full".

(** ** Everything that writes the state *)

Inductive Event :=
| Chat (c : Command)
| Pass (t : Tick).

Definition run_event (sqlite_error : Z → option string)
    (urlopen : string → nat → result string) (self : Bot) (ev : Event) : Bot :=
  match ev with
  | Chat c => run_command sqlite_error urlopen self c
  | Pass t => tick self t
  end.

Definition run_events (sqlite_error : Z → option string)
    (urlopen : string → nat → result string) (evs : list Event) (self : Bot)
  : Bot :=
  foldl (run_event sqlite_error urlopen) self evs.

(** SQLite commits every write of the pass of this event. *)
Definition commits_writes (ev : Event) : Prop :=
  match ev with
  | Chat _ => True
  | Pass t => ∀ k, tick_sqlite t k = None
  end.

(** The user a chat command is issued by, when it concerns an entry. *)
Definition command_author (c : Command) : option Z :=
  match c with
  | SetRepo _ _ => None
  | LinkGithub author_id _ _ => Some author_id
  | MyChallenge author_id _ _ => Some author_id
  end.

(** The service is down: every request raises. *)
Definition service_down (urlopen : string → nat → result string) : Prop :=
  ∀ prompt attempt, ∃ e, urlopen prompt attempt = Raise e.


(** The 20 points of lines 225-227, when the pass adds them. *)
Definition challenge_bonus (data : UserData) (new_points : Z) : Z :=
  if truthy (current_challenge data) && bool_decide (0 < new_points)
  then 20 else 0.



(** Every request fails on a truncated body; no rate limit is involved. *)
Definition truncated_body : string → nat → result string :=
  λ _ _, Raise "IncompleteRead(429 bytes read, 100 more expected)".

(** * Properties *)

Example apply_new_points_one_commit :
  apply_new_points 7 10 (mkUserData "alice" 0 [] None 0)
  = mkUserData "alice" 10 ["Bronze Collaborator"] None 7.
Proof. vm_compute. reflexivity. Qed.

(** ** The points of a fetch are the weighted counts *)

Lemma review_loop_count gh_user last_check prs acc :
  review_loop gh_user last_check prs acc
  = (r ←! count_reviews gh_user last_check prs; Ok (acc + 15 * r)).
Proof.
  revert acc. induction prs as [|pr prs IH]; intros acc; simpl.
  - f_equal. lia.
  - destruct (get_reviews pr) as [reviews|msg]; simpl; [|done].
    rewrite IH.
    destruct (count_reviews gh_user last_check prs) as [n|msg]; simpl; [|done].
    f_equal. lia.
Qed.

Lemma fetch_new_points_counts repo gh_user last_check :
  fetch_new_points repo gh_user last_check
  = (counts ←! activity_counts repo gh_user last_check; Ok (total_delta counts)).
Proof.
  destruct repo as [r|]; simpl; [|done].
  destruct (get_commits_totalCount r gh_user last_check) as [c|msg]; simpl; [|done].
  destruct (get_issues_comments r last_check) as [comments|msg]; simpl; [|done].
  destruct (get_pulls r) as [prs|msg]; simpl; [|done].
  rewrite review_loop_count.
  destruct (count_reviews gh_user last_check (take 10 prs)) as [n|msg]; simpl; [|done].
  f_equal. lia.
Qed.

Lemma fetch_new_points_observed repo gh_user last_check c m r :
  activity_counts repo gh_user last_check = Ok (c, m, r) →
  fetch_new_points repo gh_user last_check = Ok (10 * c + 5 * m + 15 * r).
Proof. intros H. rewrite fetch_new_points_counts, H. reflexivity. Qed.

(** ** The pass, entry by entry *)

Section PassLemmas.

Variable sqlite_error : Z → option string.
Variable the_repo : option Repository.
Variable now : time.

Lemma users_table_logger r io : users_table (logger r io) = users_table io.
Proof. reflexivity. Qed.

Lemma poll_user_data disc_id data io :
  (poll_user sqlite_error the_repo now disc_id data io).1
  = poll_data the_repo now data.
Proof.
  unfold poll_user, poll_data.
  destruct (fetch_new_points _ _ _); reflexivity.
Qed.

Lemma poll_user_row disc_id data io :
  users_table (poll_user sqlite_error the_repo now disc_id data io).2 !! disc_id
  = poll_saved sqlite_error the_repo now disc_id data (users_table io !! disc_id).
Proof.
  unfold poll_user, poll_saved, save_user_data.
  destruct (fetch_new_points _ _ _); simpl; [|done].
  destruct (sqlite_error disc_id); simpl; [done|].
  apply lookup_insert_eq.
Qed.

Lemma poll_user_other_row disc_id data io k :
  disc_id ≠ k →
  users_table (poll_user sqlite_error the_repo now disc_id data io).2 !! k
  = users_table io !! k.
Proof.
  intros Hne. unfold poll_user, save_user_data.
  destruct (fetch_new_points _ _ _); simpl; [|done].
  destruct (sqlite_error disc_id); simpl; [done|].
  by apply lookup_insert_ne.
Qed.

Lemma poll_loop_cons disc_id data items io :
  poll_loop sqlite_error the_repo now ((disc_id, data) :: items) io
  = let r := poll_user sqlite_error the_repo now disc_id data io in
    let r' := poll_loop sqlite_error the_repo now items r.2 in
    ((disc_id, r.1) :: r'.1, r'.2).
Proof.
  simpl. destruct (poll_user _ _ _ _ _ _) as [d io1]; simpl.
  destruct (poll_loop _ _ _ _ _) as [l io2]; reflexivity.
Qed.

Lemma poll_loop_keys items io :
  (poll_loop sqlite_error the_repo now items io).1.*1 = items.*1.
Proof.
  revert io. induction items as [|[k d] items IH]; intros io; [done|].
  rewrite poll_loop_cons. simpl. by rewrite IH.
Qed.

Lemma poll_loop_get items io k :
  dict_get k (poll_loop sqlite_error the_repo now items io).1
  = poll_data the_repo now <$> dict_get k items.
Proof.
  revert io. induction items as [|[k' d] items IH]; intros io; [done|].
  rewrite poll_loop_cons. simpl.
  case_bool_decide; simpl; [by rewrite poll_user_data | apply IH].
Qed.

Lemma dict_get_None {A} k (items : list (Z * A)) :
  k ∉ items.*1 → dict_get k items = None.
Proof.
  induction items as [|[k' d] items IH]; [done|]; simpl.
  rewrite not_elem_of_cons. intros [Hne Hnotin].
  case_bool_decide; [congruence | auto].
Qed.

Lemma poll_loop_absent_row items io k :
  k ∉ items.*1 →
  users_table (poll_loop sqlite_error the_repo now items io).2 !! k
  = users_table io !! k.
Proof.
  revert io. induction items as [|[k' d] items IH]; intros io; [done|].
  simpl fmap. rewrite not_elem_of_cons. intros [Hne Hnotin].
  rewrite poll_loop_cons. simpl.
  rewrite IH by done. apply poll_user_other_row. congruence.
Qed.

Lemma poll_loop_row items io k :
  NoDup items.*1 →
  users_table (poll_loop sqlite_error the_repo now items io).2 !! k
  = match dict_get k items with
    | Some data => poll_saved sqlite_error the_repo now k data (users_table io !! k)
    | None => users_table io !! k
    end.
Proof.
  revert io. induction items as [|[k' d] items IH]; intros io; [done|].
  simpl fmap. rewrite NoDup_cons. intros [Hnotin Hnodup].
  rewrite poll_loop_cons. simpl.
  case_bool_decide as Hk.
  - subst k'. rewrite poll_loop_absent_row by done. apply poll_user_row.
  - rewrite IH by done. rewrite poll_user_other_row by done. reflexivity.
Qed.

End PassLemmas.

Lemma poll_github_once_get sqlite_error now self k :
  dict_get k (user_data (poll_github_once sqlite_error now self))
  = poll_data (repo self) now <$> dict_get k (user_data self).
Proof.
  unfold poll_github_once.
  pose proof (poll_loop_get sqlite_error (repo self) now (user_data self)
                (logger (LogInfo "Starting GitHub poll") (storage self)) k) as H.
  destruct (poll_loop _ _ _ _ _) as [items io]. exact H.
Qed.

Lemma poll_github_once_row sqlite_error now self k :
  NoDup (user_data self).*1 →
  users_table (storage (poll_github_once sqlite_error now self)) !! k
  = match dict_get k (user_data self) with
    | Some data => poll_saved sqlite_error (repo self) now k data
                              (users_table (storage self) !! k)
    | None => users_table (storage self) !! k
    end.
Proof.
  intros Hnodup. unfold poll_github_once.
  pose proof (poll_loop_row sqlite_error (repo self) now (user_data self)
                (logger (LogInfo "Starting GitHub poll") (storage self)) k Hnodup) as H.
  destruct (poll_loop _ _ _ _ _) as [items io]. exact H.
Qed.

Lemma poll_github_once_last_global_check sqlite_error now self :
  last_global_check (poll_github_once sqlite_error now self) = now.
Proof.
  unfold poll_github_once. destruct (poll_loop _ _ _ _ _); reflexivity.
Qed.

Lemma poll_github_once_keys sqlite_error now self :
  (user_data (poll_github_once sqlite_error now self)).*1 = (user_data self).*1.
Proof.
  unfold poll_github_once.
  pose proof (poll_loop_keys sqlite_error (repo self) now (user_data self)
                (logger (LogInfo "Starting GitHub poll") (storage self))) as H.
  destruct (poll_loop _ _ _ _ _) as [items io]. exact H.
Qed.

(** ** The fields of an updated entry *)

Lemma apply_new_points_points now new_points data :
  points (apply_new_points now new_points data)
  = points data + new_points
    + (if truthy (current_challenge data) && bool_decide (0 < new_points)
       then 20 else 0).
Proof.
  unfold apply_new_points, complete_challenge. simpl.
  destruct (truthy (current_challenge data) && bool_decide (0 < new_points));
    simpl; lia.
Qed.

Lemma apply_new_points_current_challenge now new_points data :
  current_challenge (apply_new_points now new_points data)
  = if truthy (current_challenge data) && bool_decide (0 < new_points)
    then None else current_challenge data.
Proof.
  unfold apply_new_points, complete_challenge. simpl.
  destruct (truthy (current_challenge data) && bool_decide (0 < new_points));
    reflexivity.
Qed.

Lemma apply_new_points_last_activity_check now new_points data :
  last_activity_check (apply_new_points now new_points data) = now.
Proof. reflexivity. Qed.

Lemma apply_new_points_github_user now new_points data :
  github_user (apply_new_points now new_points data) = github_user data.
Proof.
  unfold apply_new_points, complete_challenge. simpl.
  destruct (truthy (current_challenge data) && bool_decide (0 < new_points));
    reflexivity.
Qed.

Lemma apply_new_points_badges now new_points data :
  badges (apply_new_points now new_points data)
  = badges (update_badges (set_points (points data + new_points) data)).
Proof.
  unfold apply_new_points, complete_challenge. simpl.
  destruct (truthy (current_challenge data) && bool_decide (0 < new_points));
    reflexivity.
Qed.

Lemma poll_data_ok repo now data new_points :
  fetch_new_points repo (github_user data) (last_activity_check data)
  = Ok new_points →
  poll_data repo now data = apply_new_points now new_points data.
Proof. intros H. unfold poll_data. by rewrite H. Qed.

Lemma poll_data_raise repo now data msg :
  fetch_new_points repo (github_user data) (last_activity_check data)
  = Raise msg →
  poll_data repo now data = data.
Proof. intros H. unfold poll_data. by rewrite H. Qed.

(** The entry of [disc_id] after a pass, given the entry before it and a
    fetch that went through. *)
Ltac entry_after_pass Hget :=
  rewrite poll_github_once_get, Hget; simpl; f_equal; apply poll_data_ok.

(** ** Scoring *)

(** C1. A tracked user with no active challenge for whom the pass observes
    [c] commits, [m] comments and [r] reviews since the watermark leaves
    the pass with [10*c + 5*m + 15*r] more points; from a score of 0 the
    new score is [10*c + 5*m + 15*r]. *)
Theorem poll_github_once_awards_weighted_counts
    sqlite_error now self disc_id data c m r :
  dict_get disc_id (user_data self) = Some data →
  current_challenge data = None →
  activity_counts (repo self) (github_user data) (last_activity_check data)
  = Ok (c, m, r) →
  0 ≤ c → 0 ≤ m → 0 ≤ r →
  ∃ data',
    dict_get disc_id (user_data (poll_github_once sqlite_error now self))
    = Some data'
    ∧ points data' = points data + (10 * c + 5 * m + 15 * r)
    ∧ (points data = 0 → points data' = 10 * c + 5 * m + 15 * r).
Proof.
  intros Hget Hnone Hcounts _ _ _.
  exists (apply_new_points now (10 * c + 5 * m + 15 * r) data).
  split.
  - entry_after_pass Hget. by apply fetch_new_points_observed.
  - rewrite apply_new_points_points, Hnone. simpl. lia.
Qed.

Lemma poll_github_once_awards_weighted_counts_witness :
  ∃ data',
    dict_get 1 (user_data (poll_github_once no_sqlite_error 100
       (mkBot (Some (repo_of alice_history))
              [(1, mkUserData "alice" 0 [] None 10)] 0 empty_storage)))
    = Some data'
    ∧ points data' = 0 + (10 * 2 + 5 * 1 + 15 * 1)
    ∧ (0 = 0 → points data' = 10 * 2 + 5 * 1 + 15 * 1).
Proof.
  apply (poll_github_once_awards_weighted_counts no_sqlite_error 100
           (mkBot (Some (repo_of alice_history))
                  [(1, mkUserData "alice" 0 [] None 10)] 0 empty_storage)
           1 (mkUserData "alice" 0 [] None 10) 2 1 1);
    [reflexivity | reflexivity | vm_compute; reflexivity | lia | lia | lia].
Defined.

(** ** Watermarks *)

(** C2. The pass takes the one timestamp [now]; every entry whose fetch went
    through carries [now] as its watermark afterwards, whatever the counts
    were, and the global watermark is [now] once the loop is over, whether
    or not some entries failed. *)
Theorem poll_github_once_shared_watermark sqlite_error now self :
  last_global_check (poll_github_once sqlite_error now self) = now
  ∧ ∀ disc_id data new_points,
      dict_get disc_id (user_data self) = Some data →
      fetch_new_points (repo self) (github_user data) (last_activity_check data)
      = Ok new_points →
      ∃ data',
        dict_get disc_id (user_data (poll_github_once sqlite_error now self))
        = Some data'
        ∧ last_activity_check data' = now.
Proof.
  split; [apply poll_github_once_last_global_check|].
  intros disc_id data new_points Hget Hfetch.
  exists (apply_new_points now new_points data). split; [|reflexivity].
  by entry_after_pass Hget.
Qed.

Lemma poll_github_once_shared_watermark_witness :
  let self := mkBot (Some (failing_for "bob" alice_history)) three_users 0
                    empty_storage in
  last_global_check (poll_github_once no_sqlite_error 100 self) = 100
  ∧ ∃ data',
      dict_get 3 (user_data (poll_github_once no_sqlite_error 100 self))
      = Some data'
      ∧ last_activity_check data' = 100.
Proof.
  intros self.
  destruct (poll_github_once_shared_watermark no_sqlite_error 100 self)
    as [Hglobal Husers].
  split; [exact Hglobal|].
  apply (Husers 3 (mkUserData "carol" 7 [] None 30) 0);
    vm_compute; reflexivity.
Defined.

(** ** Fault isolation *)

(** C3, as the code has it. In [gamified_bot.py], in a pass over the
    entries A, B, C in which the fetch for B raises (and the fetches for A
    and C go through, and SQLite commits their rows), the loop runs to its
    end: A and C have their score raised by their new points (and by the
    bonus of a completed challenge) and the watermark [now], in memory and
    in the table; B's entry and B's row are what they were; the global
    watermark is advanced. In [demo.py], where nothing catches the
    exception, the same pass is left at B: A has the same update, B and C
    are what they were, and the global watermark is not advanced. *)
Theorem poll_github_once_isolates_failure
    sqlite_error now the_repo lgc io a b c A B C pointsA pointsC msg :
  a ≠ b → a ≠ c → b ≠ c →
  fetch_new_points the_repo (github_user A) (last_activity_check A) = Ok pointsA →
  fetch_new_points the_repo (github_user B) (last_activity_check B) = Raise msg →
  fetch_new_points the_repo (github_user C) (last_activity_check C) = Ok pointsC →
  sqlite_error a = None → sqlite_error c = None →
  let self' :=
    poll_github_once sqlite_error now
      (mkBot the_repo [(a, A); (b, B); (c, C)] lgc io) in
  ∃ A' C',
    user_data self' = [(a, A'); (b, B); (c, C')]
    ∧ points A' = points A + pointsA + challenge_bonus A pointsA
    ∧ last_activity_check A' = now
    ∧ github_user A' = github_user A
    ∧ points C' = points C + pointsC + challenge_bonus C pointsC
    ∧ last_activity_check C' = now
    ∧ github_user C' = github_user C
    ∧ users_table (storage self') !! a = Some A'
    ∧ users_table (storage self') !! b = users_table io !! b
    ∧ users_table (storage self') !! c = Some C'
    ∧ last_global_check self' = now
    ∧ Demo.poll_github_once now
        (Demo.mkBot the_repo [(a, A); (b, B); (c, C)] lgc)
      = (Demo.mkBot the_repo [(a, A'); (b, B); (c, C)] lgc, Some msg).
Proof.
  intros Hab Hac Hbc HA HB HC Hsa Hsc self'.
  exists (apply_new_points now pointsA A), (apply_new_points now pointsC C).
  assert (Hnodup : NoDup (user_data
            (mkBot the_repo [(a, A); (b, B); (c, C)] lgc io)).*1).
  { simpl. rewrite !NoDup_cons, !not_elem_of_cons.
    repeat split; auto using not_elem_of_nil, NoDup_nil_2. }
  split.
  { subst self'. unfold poll_github_once. simpl.
    unfold poll_user. simpl. rewrite HA, HB, HC. reflexivity. }
  split; [apply apply_new_points_points|]. split; [reflexivity|].
  split; [apply apply_new_points_github_user|].
  split; [apply apply_new_points_points|]. split; [reflexivity|].
  split; [apply apply_new_points_github_user|].
  split; [|split; [|split; [|split]]].
  - subst self'. rewrite poll_github_once_row by done. simpl.
    rewrite bool_decide_eq_true_2 by done.
    unfold poll_saved. by rewrite HA, Hsa.
  - subst self'. rewrite poll_github_once_row by done. simpl.
    rewrite bool_decide_eq_false_2, bool_decide_eq_true_2 by done.
    unfold poll_saved. by rewrite HB.
  - subst self'. rewrite poll_github_once_row by done. simpl.
    rewrite !bool_decide_eq_false_2, bool_decide_eq_true_2 by done.
    unfold poll_saved. by rewrite HC, Hsc.
  - apply poll_github_once_last_global_check.
  - unfold Demo.poll_github_once. simpl. by rewrite HA, HB.
Qed.

Lemma poll_github_once_isolates_failure_witness :
  let alice := mkUserData "alice" 0 [] None 10 in
  let bob :=
    mkUserData "bob" 45 ["Bronze Collaborator"] (Some "Review one PR") 20 in
  let carol := mkUserData "carol" 7 [] None 30 in
  let the_repo := Some (failing_for "bob" alice_history) in
  let self' :=
    poll_github_once no_sqlite_error 100
      (mkBot the_repo [(1, alice); (2, bob); (3, carol)] 0 empty_storage) in
  ∃ alice' carol',
    user_data self' = [(1, alice'); (2, bob); (3, carol')]
    ∧ points alice' = 0 + 40 + challenge_bonus alice 40
    ∧ last_activity_check alice' = 100
    ∧ github_user alice' = "alice"
    ∧ points carol' = 7 + 0 + challenge_bonus carol 0
    ∧ last_activity_check carol' = 100
    ∧ github_user carol' = "carol"
    ∧ users_table (storage self') !! 1 = Some alice'
    ∧ users_table (storage self') !! 2 = users_table empty_storage !! 2
    ∧ users_table (storage self') !! 3 = Some carol'
    ∧ last_global_check self' = 100
    ∧ Demo.poll_github_once 100
        (Demo.mkBot the_repo [(1, alice); (2, bob); (3, carol)] 0)
      = (Demo.mkBot the_repo [(1, alice'); (2, bob); (3, carol)] 0,
         Some "502 Server Error").
Proof.
  apply (poll_github_once_isolates_failure no_sqlite_error 100
           (Some (failing_for "bob" alice_history)) 0 empty_storage 1 2 3
           (mkUserData "alice" 0 [] None 10)
           (mkUserData "bob" 45 ["Bronze Collaborator"] (Some "Review one PR") 20)
           (mkUserData "carol" 7 [] None 30)
           40 0 "502 Server Error");
    [lia | lia | lia | vm_compute; reflexivity | vm_compute; reflexivity
    | vm_compute; reflexivity | reflexivity | reflexivity].
Defined.

(** C3, as stated, fails on the pass of [demo.py] (lines 113-141), which
    has no [try] around the loop body: with alice, bob and carol linked and
    the fetch for bob raising, the exception leaves the pass; carol, whose
    fetch would go through, keeps her old watermark 30, and the global
    watermark stays 0. *)
Lemma demo_pass_stops_at_failing_fetch :
  let the_repo := Some (failing_for "bob" alice_history) in
  let r := Demo.poll_github_once 100 (Demo.mkBot the_repo three_users 0) in
  fetch_new_points the_repo "carol" 30 = Ok 0
  ∧ r.2 = Some "502 Server Error"
  ∧ dict_get 3 (Demo.user_data r.1) = Some (mkUserData "carol" 7 [] None 30)
  ∧ last_activity_check (mkUserData "carol" 7 [] None 30) ≠ 100
  ∧ Demo.last_global_check r.1 = 0
  ∧ Demo.last_global_check r.1 ≠ 100.
Proof.
  intros the_repo r.
  split; [vm_compute; reflexivity|]. split; [vm_compute; reflexivity|].
  split; [vm_compute; reflexivity|]. split; [simpl; lia|].
  split; [vm_compute; reflexivity|]. vm_compute. discriminate.
Qed.

Example isolated_failure_outcome :
  user_data (poll_github_once no_sqlite_error 100
               (mkBot (Some (failing_for "bob" alice_history)) three_users 0
                      empty_storage))
  = [(1, mkUserData "alice" 40 ["Bronze Collaborator"] None 100);
     (2, mkUserData "bob" 45 ["Bronze Collaborator"] (Some "Review one PR") 20);
     (3, mkUserData "carol" 7 [] None 100)].
Proof. vm_compute. reflexivity. Qed.

(** ** The watermark as a lower bound *)



Lemma review_loop_history gh_user last_check (l : list (list Review)) acc :
  review_loop gh_user last_check ((λ rs, mkPullRequest (Ok rs)) <$> l) acc
  = Ok (acc + 15 * len (filter (λ r, review_user_login r = gh_user)
                          (concat (filter (λ r, last_check < submitted_at r) <$> l)))).
Proof.
  revert acc. induction l as [|rs l IH]; intros acc.
  - simpl. f_equal. unfold len. simpl. lia.
  - rewrite fmap_cons. cbn [review_loop get_reviews result_bind].
    rewrite IH. f_equal. rewrite fmap_cons. cbn [concat].
    rewrite filter_app. unfold len, user_reviews.
    rewrite length_app, list_filter_filter, Nat2Z.inj_add. lia.
Qed.

Lemma fetch_new_points_history h gh_user last_check :
  fetch_new_points (Some (repo_of h)) gh_user last_check
  = Ok (history_value gh_user (after last_check h)).
Proof.
  unfold fetch_new_points, repo_of, history_value. simpl.
  rewrite <- fmap_take, review_loop_history. f_equal.
  unfold commits_by, comments_by, reviews_by, user_comments, after. simpl.
  rewrite !list_filter_filter, <- fmap_take. lia.
Qed.



Lemma poll_data_history h now data :
  poll_data (Some (repo_of h)) now data
  = apply_new_points now
      (history_value (github_user data) (after (last_activity_check data) h))
      data.
Proof. apply poll_data_ok, fetch_new_points_history. Qed.




(** ** Challenges *)

(** C5, as the code has it. The test of line 225 is the truthiness of
    [data['current_challenge']], which holds for a non-empty text. For a
    user whose challenge is a non-empty text, a pass with a strictly
    positive total delta ends with the challenge cleared and the score
    increased by the delta plus 20; with a delta of zero the challenge
    stays and nothing is added. *)
Theorem poll_github_once_completes_challenge
    sqlite_error now self disc_id data challenge counts :
  dict_get disc_id (user_data self) = Some data →
  current_challenge data = Some challenge →
  challenge ≠ "" →
  activity_counts (repo self) (github_user data) (last_activity_check data)
  = Ok counts →
  ∃ data',
    dict_get disc_id (user_data (poll_github_once sqlite_error now self))
    = Some data'
    ∧ (0 < total_delta counts →
       current_challenge data' = None
       ∧ points data' = points data + (total_delta counts + 20))
    ∧ (total_delta counts = 0 →
       current_challenge data' = Some challenge
       ∧ points data' = points data).
Proof.
  intros Hget Hch Hne Hcounts.
  exists (apply_new_points now (total_delta counts) data).
  split.
  { entry_after_pass Hget. by rewrite fetch_new_points_counts, Hcounts. }
  rewrite apply_new_points_points, apply_new_points_current_challenge, Hch.
  simpl. rewrite (bool_decide_eq_false_2 (challenge = "")) by done. simpl.
  split; intros Hdelta.
  - rewrite bool_decide_eq_true_2 by done. split; [done | lia].
  - rewrite bool_decide_eq_false_2 by lia. split; [done | lia].
Qed.

Lemma poll_github_once_completes_challenge_witness :
  ∃ data',
    dict_get 2 (user_data (poll_github_once no_sqlite_error 100
       (mkBot (Some (repo_of one_commit_history))
              [(2, mkUserData "bob" 0 [] (Some "Review one PR") 20)]
              0 empty_storage)))
    = Some data'
    ∧ (0 < total_delta (1, 0, 0) →
       current_challenge data' = None ∧ points data' = 0 + (total_delta (1, 0, 0) + 20))
    ∧ (total_delta (1, 0, 0) = 0 →
       current_challenge data' = Some "Review one PR" ∧ points data' = 0).
Proof.
  apply (poll_github_once_completes_challenge no_sqlite_error 100
           (mkBot (Some (repo_of one_commit_history))
                  [(2, mkUserData "bob" 0 [] (Some "Review one PR") 20)]
                  0 empty_storage)
           2 (mkUserData "bob" 0 [] (Some "Review one PR") 20)
           "Review one PR" (1, 0, 0));
    [reflexivity | reflexivity | discriminate | vm_compute; reflexivity].
Defined.

(** C5, as stated, fails on a challenge that is set to the empty text (what
    [call_gemini] returns when the stripped answer is empty): the pass
    observes a delta of 10, adds no bonus and leaves the challenge in
    place. *)
Lemma empty_challenge_not_completed :
  let data := mkUserData "bob" 0 [] (Some "") 20 in
  let self := mkBot (Some (repo_of one_commit_history)) [(2, data)] 0
                    empty_storage in
  let data' := mkUserData "bob" 10 ["Bronze Collaborator"] (Some "") 100 in
  current_challenge data ≠ None
  ∧ activity_counts (repo self) "bob" 20 = Ok (1, 0, 0)
  ∧ 0 < total_delta (1, 0, 0)
  ∧ dict_get 2 (user_data (poll_github_once no_sqlite_error 100 self))
    = Some data'
  ∧ current_challenge data' ≠ None
  ∧ points data' ≠ points data + (total_delta (1, 0, 0) + 20).
Proof.
  intros data self data'.
  split; [discriminate|]. split; [vm_compute; reflexivity|].
  split; [reflexivity|]. split; [vm_compute; reflexivity|].
  split; [discriminate|]. vm_compute. discriminate.
Qed.

(** The empty challenge is a state the bot reaches by itself. *)
Example empty_challenge_reachable :
  let urlopen := λ (_ : string) (_ : nat), Ok "" in
  let self := mkBot (Some (repo_of one_commit_history))
                    [(2, mkUserData "bob" 0 [] None 20)] 0 empty_storage in
  user_data (my_challenge no_sqlite_error urlopen 2 "bob" "Commits: 1" self)
  = [(2, mkUserData "bob" 0 [] (Some "") 20)].
Proof. vm_compute. reflexivity. Qed.

(** ** Order of the score update, the badge rules and the save *)

(** C6 fails on the code: line 223 evaluates the badges before lines
    225-227 add the bonus. A user at 35 points with an open challenge and
    one new commit ends the pass with 65 points, in memory and in the
    table, and without the Silver badge that 50 points earn. *)
Theorem challenge_bonus_added_after_badges :
  let data :=
    mkUserData "bob" 35 ["Bronze Collaborator"] (Some "Review one PR") 20 in
  let self := mkBot (Some (repo_of one_commit_history)) [(2, data)] 0
                    empty_storage in
  let self' := poll_github_once no_sqlite_error 100 self in
  let data' := mkUserData "bob" 65 ["Bronze Collaborator"] None 100 in
  dict_get 2 (user_data self') = Some data'
  ∧ users_table (storage self') !! 2 = Some data'
  ∧ 50 ≤ points data'
  ∧ ("Silver Collaborator" ∉ badges data')
  ∧ ("Silver Collaborator" ∈ badges (update_badges data')).
Proof.
  intros data self self' data'.
  split; [vm_compute; reflexivity|].
  split; [vm_compute; reflexivity|].
  split; [simpl; lia|].
  split; apply (bool_decide_unpack _); vm_compute; reflexivity.
Qed.

(** What does hold of the order: the badges of the entry are those of the
    score with the delta added, and the row saved is the finished entry. *)
Lemma poll_user_order sqlite_error repo now disc_id data io new_points :
  fetch_new_points repo (github_user data) (last_activity_check data)
  = Ok new_points →
  sqlite_error disc_id = None →
  let r := poll_user sqlite_error repo now disc_id data io in
  badges r.1 = badges (update_badges (set_points (points data + new_points) data))
  ∧ users_table r.2 !! disc_id = Some r.1.
Proof.
  intros Hfetch Hsql r. subst r.
  rewrite poll_user_row, poll_user_data. unfold poll_saved.
  rewrite Hfetch, Hsql, (poll_data_ok _ _ _ _ Hfetch).
  split; [apply apply_new_points_badges | reflexivity].
Qed.

(** ** Badge rules *)

Lemma award_keeps threshold tag points (badges : list string) t :
  t ∈ badges → t ∈ award threshold tag points badges.
Proof.
  intros Hin. unfold award.
  destruct (bool_decide (threshold ≤ points) && negb (bool_decide (tag ∈ badges)));
    [apply elem_of_app; by left | done].
Qed.

Lemma award_reached threshold tag points (badges : list string) :
  threshold ≤ points → tag ∈ award threshold tag points badges.
Proof.
  intros Hle. unfold award. rewrite bool_decide_eq_true_2 by done. simpl.
  case_bool_decide as Hin; simpl; [done|].
  apply elem_of_app. right. apply list_elem_of_here.
Qed.

Lemma award_settled threshold tag points (badges : list string) :
  (threshold ≤ points → tag ∈ badges) →
  award threshold tag points badges = badges.
Proof.
  intros Hin. unfold award.
  case_bool_decide as Hle; simpl; [|done].
  rewrite bool_decide_eq_true_2 by auto. done.
Qed.

Lemma award_below threshold tag points (badges : list string) :
  points < threshold → award threshold tag points badges = badges.
Proof. intros Hlt. apply award_settled. lia. Qed.

(** What [award] appends is new, and at most the tag. *)
Lemma award_appends threshold tag points (badges : list string) :
  ∃ added,
    award threshold tag points badges = badges ++ added
    ∧ NoDup added
    ∧ (∀ t, t ∈ added → t = tag ∧ t ∉ badges).
Proof.
  unfold award. case_bool_decide as Hle; simpl.
  - case_bool_decide as Hin; simpl.
    + exists []. rewrite app_nil_r. split; [done|]. split; [constructor|].
      intros t Ht. by apply elem_of_nil in Ht.
    + exists [tag]. split; [done|]. split; [apply NoDup_singleton|].
      intros t Ht. apply list_elem_of_singleton in Ht. by subst t.
  - exists []. rewrite app_nil_r. split; [done|]. split; [constructor|].
    intros t Ht. by apply elem_of_nil in Ht.
Qed.

Lemma award_NoDup threshold tag points (badges : list string) :
  NoDup badges → NoDup (award threshold tag points badges).
Proof.
  intros Hnd. destruct (award_appends threshold tag points badges)
    as (added & -> & Hadded & Hnew).
  apply NoDup_app. split; [done|]. split; [|done].
  intros t Hin Hadd. by destruct (Hnew t Hadd).
Qed.

(** C7. After [update_badges] the badge list holds the Bronze tag when the
    score is at least 10, the Silver tag when it is at least 50 and the
    Gold tag when it is at least 100, hence all three from 100 on. A user
    without badges whose score is 10 (or anything below 50) gets exactly
    the Bronze tag; a Bronze holder at 50 or more holds Silver and still
    holds Bronze. *)
Theorem update_badges_thresholds data :
  (10 ≤ points data → "Bronze Collaborator" ∈ badges (update_badges data))
  ∧ (50 ≤ points data → "Silver Collaborator" ∈ badges (update_badges data))
  ∧ (100 ≤ points data → "Gold Collaborator" ∈ badges (update_badges data))
  ∧ (100 ≤ points data →
     "Bronze Collaborator" ∈ badges (update_badges data)
     ∧ "Silver Collaborator" ∈ badges (update_badges data)
     ∧ "Gold Collaborator" ∈ badges (update_badges data))
  ∧ (badges data = [] → 10 ≤ points data < 50 →
     badges (update_badges data) = ["Bronze Collaborator"])
  ∧ (badges data = ["Bronze Collaborator"] → 50 ≤ points data < 100 →
     badges (update_badges data)
     = ["Bronze Collaborator"; "Silver Collaborator"])
  ∧ ("Bronze Collaborator" ∈ badges data → 50 ≤ points data →
     "Bronze Collaborator" ∈ badges (update_badges data)
     ∧ "Silver Collaborator" ∈ badges (update_badges data)).
Proof.
  assert (Hbronze : 10 ≤ points data →
                    "Bronze Collaborator" ∈ badges (update_badges data)).
  { intros H. simpl. by do 2 apply award_keeps; apply award_reached. }
  assert (Hsilver : 50 ≤ points data →
                    "Silver Collaborator" ∈ badges (update_badges data)).
  { intros H. simpl. by apply award_keeps, award_reached. }
  assert (Hgold : 100 ≤ points data →
                  "Gold Collaborator" ∈ badges (update_badges data)).
  { intros H. simpl. by apply award_reached. }
  split; [done|]. split; [done|]. split; [done|].
  split. { intros H. repeat split; [apply Hbronze | apply Hsilver | apply Hgold]; lia. }
  split.
  { intros Hnil [Hlo Hhi]. simpl. rewrite Hnil.
    rewrite (award_below 100), (award_below 50) by lia.
    unfold award. by rewrite bool_decide_eq_true_2 by done. }
  split.
  { intros Hb [Hlo Hhi]. simpl. rewrite Hb.
    rewrite (award_below 100) by lia.
    rewrite (award_settled 10) by (intros _; apply list_elem_of_here).
    unfold award. rewrite bool_decide_eq_true_2 by done.
    rewrite bool_decide_eq_false_2; [done|].
    rewrite list_elem_of_singleton. discriminate. }
  intros Hin H. split; [|by apply Hsilver].
  simpl. by do 3 apply award_keeps.
Qed.

Lemma update_badges_thresholds_witness :
  "Bronze Collaborator" ∈ badges (update_badges (mkUserData "alice" 120 [] None 0))
  ∧ "Silver Collaborator" ∈ badges (update_badges (mkUserData "alice" 120 [] None 0))
  ∧ "Gold Collaborator" ∈ badges (update_badges (mkUserData "alice" 120 [] None 0))
  ∧ badges (update_badges (mkUserData "alice" 10 [] None 0))
    = ["Bronze Collaborator"]
  ∧ badges (update_badges (mkUserData "alice" 55 ["Bronze Collaborator"] None 0))
    = ["Bronze Collaborator"; "Silver Collaborator"].
Proof.
  destruct (update_badges_thresholds (mkUserData "alice" 120 [] None 0))
    as (_ & _ & _ & Hall & _).
  destruct (update_badges_thresholds (mkUserData "alice" 10 [] None 0))
    as (_ & _ & _ & _ & Hten & _).
  destruct (update_badges_thresholds
              (mkUserData "alice" 55 ["Bronze Collaborator"] None 0))
    as (_ & _ & _ & _ & _ & Hfifty & _).
  assert (H120 : 100 ≤ 120) by lia.
  destruct (Hall H120) as (Hb & Hs & Hg).
  split; [exact Hb|]. split; [exact Hs|]. split; [exact Hg|]. split.
  - apply Hten; [reflexivity | simpl; lia].
  - apply Hfifty; [reflexivity | simpl; lia].
Defined.

(** The two badge scenarios of the specification, through a whole entry
    update. *)
Example apply_new_points_crossing_fifty :
  apply_new_points 7 10 (mkUserData "alice" 45 ["Bronze Collaborator"] None 0)
  = mkUserData "alice" 55 ["Bronze Collaborator"; "Silver Collaborator"] None 7.
Proof. vm_compute. reflexivity. Qed.

(** C8. Evaluating the badges a second time changes nothing; an evaluation
    only appends, and what it appends are distinct tags that the list did
    not hold: no badge is removed and none is duplicated. *)
Theorem update_badges_idempotent_monotone data :
  update_badges (update_badges data) = update_badges data
  ∧ (∃ added,
       badges (update_badges data) = badges data ++ added
       ∧ NoDup added
       ∧ ∀ t, t ∈ added → t ∉ badges data)
  ∧ (∀ t, t ∈ badges data → t ∈ badges (update_badges data))
  ∧ (NoDup (badges data) → NoDup (badges (update_badges data))).
Proof.
  split.
  { unfold update_badges at 1. simpl. unfold set_badges. simpl. f_equal.
    rewrite (award_settled 10); [rewrite (award_settled 50);
                                   [rewrite (award_settled 100); [done|]|]|].
    - intros H. by apply award_reached.
    - intros H. by apply award_keeps, award_reached.
    - intros H. by do 2 apply award_keeps; apply award_reached. }
  split.
  { simpl.
    destruct (award_appends 10 "Bronze Collaborator" (points data) (badges data))
      as (a1 & E1 & N1 & F1).
    destruct (award_appends 50 "Silver Collaborator" (points data)
                (award 10 "Bronze Collaborator" (points data) (badges data)))
      as (a2 & E2 & N2 & F2).
    destruct (award_appends 100 "Gold Collaborator" (points data)
                (award 50 "Silver Collaborator" (points data)
                   (award 10 "Bronze Collaborator" (points data) (badges data))))
      as (a3 & E3 & N3 & F3).
    exists (a1 ++ a2 ++ a3).
    split; [rewrite E3, E2, E1; by rewrite <- !app_assoc|].
    assert (H2 : ∀ t, t ∈ a2 → t ∉ badges data ++ a1).
    { intros t Ht. rewrite <- E1. by apply F2. }
    assert (H3 : ∀ t, t ∈ a3 → t ∉ (badges data ++ a1) ++ a2).
    { intros t Ht. rewrite <- E1, <- E2. by apply F3. }
    split.
    - apply NoDup_app. split; [done|]. split.
      + intros t Ht1 Ht23. apply elem_of_app in Ht23 as [Ht2|Ht3].
        * apply (H2 t Ht2). apply elem_of_app. by right.
        * apply (H3 t Ht3). apply elem_of_app. left. apply elem_of_app. by right.
      + apply NoDup_app. split; [done|]. split; [|done].
        intros t Ht2 Ht3. apply (H3 t Ht3). apply elem_of_app. by right.
    - intros t Ht Hin. apply elem_of_app in Ht as [Ht1|Ht].
      + by destruct (F1 t Ht1).
      + apply elem_of_app in Ht as [Ht2|Ht3].
        * apply (H2 t Ht2). apply elem_of_app. by left.
        * apply (H3 t Ht3). apply elem_of_app. left. apply elem_of_app. by left. }
  split.
  { intros t Ht. simpl. by do 3 apply award_keeps. }
  intros Hnd. simpl. by do 3 apply award_NoDup.
Qed.

Lemma update_badges_idempotent_monotone_witness :
  let data := mkUserData "alice" 120 ["Bronze Collaborator"; "Early Bird"] None 0 in
  update_badges (update_badges data) = update_badges data
  ∧ "Early Bird" ∈ badges (update_badges data)
  ∧ NoDup (badges (update_badges data)).
Proof.
  intros data.
  destruct (update_badges_idempotent_monotone data) as (Hidem & _ & Hkeep & Hnd).
  split; [exact Hidem|]. split.
  - apply Hkeep. apply (bool_decide_unpack _). vm_compute. reflexivity.
  - apply Hnd. apply (bool_decide_unpack _). vm_compute. reflexivity.
Defined.

(** ** The text-generation call *)

Lemma prefix_app needle s :
  String.prefix needle s = true ↔ ∃ b, s = needle +:+ b.
Proof.
  revert s. induction needle as [|c needle IH]; intros s.
  - destruct s; simpl; (split; [intros _; by eexists | done]).
  - destruct s as [|c' s]; simpl.
    + split; [done | intros [b Hb]; discriminate Hb].
    + destruct (Ascii.ascii_dec c c') as [->|Hne].
      * rewrite IH. split; intros [b Hb]; exists b.
        -- by rewrite Hb.
        -- by injection Hb.
      * split; [done | intros [b Hb]; injection Hb; congruence].
Qed.

(** [contains] is the substring test of Python's [in]. *)
Lemma contains_substring needle s :
  contains needle s = true ↔ ∃ a b, s = a +:+ needle +:+ b.
Proof.
  induction s as [|c s IH]; cbn [contains].
  - rewrite orb_false_r, prefix_app. split.
    + intros [b Hb]. by exists "", b.
    + intros (a & b & Hab). destruct a; [by exists b | discriminate Hab].
  - rewrite orb_true_iff, prefix_app, IH. split.
    + intros [[b Hb]|(a & b & Hab)].
      * by exists "", b.
      * exists (String c a), b. simpl. by rewrite Hab.
    + intros (a & b & Hab). destruct a as [|c' a].
      * left. by exists b.
      * right. exists a, b. simpl in Hab. by injection Hab.
Qed.

Lemma backoff_S start n :
  backoff start (S n)
  = [Request start; Sleep (2 ^ Z.of_nat start)] ++ backoff (S start) n.
Proof. reflexivity. Qed.









(** The sibling of [demo.py] sends one request whatever the failure. *)
Example demo_call_gemini_single_request :
  Demo.call_gemini always_429 "How is the team doing?"
  = ("Error calling AI: HTTP Error 429: Too Many Requests", [Request 0]).
Proof. reflexivity. Qed.

(** ** The initial global watermark *)

Lemma dict_get_set {A} k (v : A) items : dict_get k (dict_set k v items) = Some v.
Proof.
  induction items as [|[k' v'] items IH]; simpl.
  - by rewrite bool_decide_eq_true_2.
  - case_bool_decide as Hk; simpl.
    + by rewrite bool_decide_eq_true_2.
    + by rewrite bool_decide_eq_false_2.
Qed.

Lemma run_command_last_global_check sqlite_error urlopen self c :
  last_global_check (run_command sqlite_error urlopen self c)
  = last_global_check self.
Proof.
  destruct c as [name [r|msg]|author_id author_name gh|author_id author_name act];
    simpl; try reflexivity.
  - unfold link_github. destruct (repo self); reflexivity.
  - unfold my_challenge.
    destruct (repo self); [|reflexivity].
    destruct (dict_get author_id (user_data self)); reflexivity.
Qed.

Lemma run_commands_last_global_check sqlite_error urlopen cs : ∀ self,
  last_global_check (run_commands sqlite_error urlopen cs self)
  = last_global_check self.
Proof.
  unfold run_commands. induction cs as [|c cs IH]; intros self; simpl; [done|].
  by rewrite IH, run_command_last_global_check.
Qed.

Lemma after_earlier t h : t ≤ 0 → after_epoch h → after t h = h.
Proof.
  unfold after_epoch. intros Ht Hh. rewrite <- Hh at 1.
  rewrite <- Hh at 2. unfold after; simpl. f_equal.
  - apply list_filter_filter_r. intros c. lia.
  - apply list_filter_filter_r. intros c. lia.
  - rewrite <- list_fmap_compose. apply list_fmap_ext.
    intros i rs _. simpl. apply list_filter_filter_r. intros r. lia.
Qed.

(** C10. Until a pass has completed, [last_global_check] is the difference
    of the two clock readings of [__init__], the current time minus the
    seconds elapsed since the epoch: as far from the epoch as the two
    readings are from each other, and not after it when the clock does not
    run backwards. A user linked in that period gets this value as
    watermark, and the pass that first processes the user scores every
    event of the repository's history by that user (for reviews: on the
    ten pull requests the pass looks at). *)
Theorem initial_watermark_is_epoch
    sqlite_error urlopen clock_now clock_time io cs :
  let self := run_commands sqlite_error urlopen cs (init clock_now clock_time io) in
  last_global_check self = clock_now - clock_time
  ∧ Z.abs (last_global_check self) = Z.abs (clock_time - clock_now)
  ∧ ∀ author_id author_name github_username,
      repo self ≠ None →
      let linked :=
        link_github sqlite_error author_id author_name github_username self in
      dict_get author_id (user_data linked)
      = Some (mkUserData github_username 0 [] None (clock_now - clock_time))
      ∧ ∀ sqlite_error' now h,
          clock_now ≤ clock_time →
          after_epoch h →
          ∃ data',
            dict_get author_id
              (user_data (poll_github_once sqlite_error' now (watching h linked)))
            = Some data'
            ∧ points data' = history_value github_username h
            ∧ last_activity_check data' = now.
Proof.
  intros self.
  assert (Hlgc : last_global_check self = clock_now - clock_time).
  { subst self. by rewrite run_commands_last_global_check. }
  split; [done|]. split; [rewrite Hlgc; lia|].
  intros author_id author_name github_username Hrepo linked.
  assert (Hlinked : dict_get author_id (user_data linked)
            = Some (mkUserData github_username 0 [] None (clock_now - clock_time))).
  { subst linked. unfold link_github.
    destruct (repo self) as [r|]; [|done]. simpl.
    by rewrite dict_get_set, Hlgc. }
  split; [done|].
  intros sqlite_error' now h Hclock Hepoch.
  eexists. split.
  { rewrite poll_github_once_get. cbn [watching user_data repo].
    rewrite Hlinked. cbn [fmap option_fmap option_map].
    rewrite poll_data_history. reflexivity. }
  split; [|reflexivity].
  rewrite apply_new_points_points. cbn [current_challenge truthy andb points
    github_user last_activity_check].
  rewrite after_earlier by (done || lia). lia.
Qed.

Lemma initial_watermark_is_epoch_witness :
  let self :=
    run_commands no_sqlite_error always_429
      [SetRepo "octo/demo" (Ok (repo_of alice_history))]
      (init 1700000000000000 1700000000000003 empty_storage) in
  let linked := link_github no_sqlite_error 1 "Alice" "alice" self in
  last_global_check self = -3
  ∧ dict_get 1 (user_data linked) = Some (mkUserData "alice" 0 [] None (-3))
  ∧ ∃ data',
      dict_get 1 (user_data (poll_github_once no_sqlite_error
                               1700000000500000 (watching alice_history linked)))
      = Some data'
      ∧ points data' = 55
      ∧ last_activity_check data' = 1700000000500000.
Proof.
  intros self linked.
  destruct (initial_watermark_is_epoch no_sqlite_error always_429
              1700000000000000 1700000000000003 empty_storage
              [SetRepo "octo/demo" (Ok (repo_of alice_history))])
    as (Hlgc & _ & Hlink).
  split; [exact Hlgc|].
  destruct (Hlink 1 "Alice" "alice") as (Hentry & Hpass); [discriminate|].
  split; [exact Hentry|].
  apply (Hpass no_sqlite_error 1700000000500000 alice_history);
    [lia | reflexivity].
Defined.

(** ** The sibling [demo.py] against the bot *)

Lemma demo_poll_loop_get the_repo now items k :
  (Demo.poll_loop the_repo now items).2 = None →
  dict_get k (Demo.poll_loop the_repo now items).1
  = poll_data the_repo now <$> dict_get k items.
Proof.
  induction items as [|[k' d] items IH]; [done|]. simpl.
  unfold poll_data at 1.
  destruct (fetch_new_points the_repo (github_user d) (last_activity_check d))
    as [new_points|msg] eqn:E; [|done].
  destruct (Demo.poll_loop the_repo now items) as [items' raised]. simpl in *.
  intros ->. case_bool_decide; simpl; [|by apply IH].
  unfold poll_data. by rewrite E.
Qed.

(** X20. When no fetch raises, the pass of [demo.py] leaves the entries and
    the global watermark that the pass of [gamified_bot.py] leaves. *)
Lemma demo_poll_github_once_agrees sqlite_error now the_repo items lgc io k :
  (Demo.poll_github_once now (Demo.mkBot the_repo items lgc)).2 = None →
  let demo' := (Demo.poll_github_once now (Demo.mkBot the_repo items lgc)).1 in
  let bot' := poll_github_once sqlite_error now (mkBot the_repo items lgc io) in
  dict_get k (Demo.user_data demo') = dict_get k (user_data bot')
  ∧ Demo.last_global_check demo' = last_global_check bot'.
Proof.
  unfold Demo.poll_github_once. simpl.
  pose proof (demo_poll_loop_get the_repo now items k) as Hget.
  destruct (Demo.poll_loop the_repo now items) as [items' [msg|]]; [done|].
  intros _. simpl. rewrite poll_github_once_get, poll_github_once_last_global_check.
  split; [by apply Hget | done].
Qed.

(** A fetch that raises leaves the pass of [demo.py] at once: the entries
    after the failing one are not visited and the global watermark stays. *)
Example demo_poll_github_once_aborts :
  Demo.poll_github_once 100
    (Demo.mkBot (Some (failing_for "bob" alice_history)) three_users 0)
  = (Demo.mkBot (Some (failing_for "bob" alice_history))
       [(1, mkUserData "alice" 40 ["Bronze Collaborator"] None 100);
        (2, mkUserData "bob" 45 ["Bronze Collaborator"] (Some "Review one PR") 20);
        (3, mkUserData "carol" 7 [] None 30)]
       0,
     Some "502 Server Error").
Proof. vm_compute. reflexivity. Qed.

(** * Further properties of the code *)

(** ** Badges *)

Lemma elem_of_award threshold tag points (badges : list string) t :
  t ∈ award threshold tag points badges
  ↔ t ∈ badges ∨ (t = tag ∧ threshold ≤ points).
Proof.
  unfold award. case_bool_decide as Hle; simpl.
  - case_bool_decide as Hin; simpl.
    + split; [by left|]. intros [?|[-> _]]; done.
    + rewrite elem_of_app, list_elem_of_singleton.
      split; [intros [?| ->]; [by left | by right]
             | intros [?|[-> _]]; [by left | by right]].
  - split; [by left|]. intros [?|[_ ?]]; [done | lia].
Qed.

(** X1. A tag is in the list after [update_badges] exactly when it was
    there before or it is the tag of a rule whose threshold the score
    reaches: no badge is awarded below its threshold, and no other tag is
    ever added. *)
Theorem update_badges_membership data t :
  t ∈ badges (update_badges data)
  ↔ t ∈ badges data
    ∨ ∃ threshold, (threshold, t) ∈ badge_rules ∧ threshold ≤ points data.
Proof.
  simpl. rewrite !elem_of_award. unfold badge_rules.
  split.
  - intros [[[?|[-> ?]]|[-> ?]]|[-> ?]]; [by left|right..].
    + exists 10. split; [|done]. apply list_elem_of_here.
    + exists 50. split; [|done]. apply list_elem_of_further, list_elem_of_here.
    + exists 100. split; [|done].
      do 2 apply list_elem_of_further. apply list_elem_of_here.
  - intros [?|(threshold & Hrule & Hle)]; [by do 3 left|].
    rewrite !elem_of_cons, elem_of_nil in Hrule.
    destruct Hrule as [Hr|[Hr|[Hr|[]]]]; simplify_eq.
    + left. left. by right.
    + left. by right.
    + by right.
Qed.

(** X2. When the pass adds no challenge bonus (the challenge is not
    truthy, or the delta is not positive), the badges of the finished entry
    agree with its final score: every rule whose threshold the final score
    reaches has its tag in the list. *)
Theorem apply_new_points_badges_match_score now new_points data threshold tag :
  truthy (current_challenge data) && bool_decide (0 < new_points) = false →
  (threshold, tag) ∈ badge_rules →
  threshold ≤ points (apply_new_points now new_points data) →
  tag ∈ badges (apply_new_points now new_points data).
Proof.
  intros Hno Hrule Hle.
  rewrite apply_new_points_points, Hno in Hle.
  rewrite apply_new_points_badges. simpl. rewrite !elem_of_award.
  unfold badge_rules in Hrule. rewrite !elem_of_cons, elem_of_nil in Hrule.
  destruct Hrule as [Hr|[Hr|[Hr|[]]]]; simplify_eq.
  - left. left. right. split; [done | lia].
  - left. right. split; [done | lia].
  - right. split; [done | lia].
Qed.

Lemma apply_new_points_badges_match_score_witness :
  "Silver Collaborator"
  ∈ badges (apply_new_points 100 10
              (mkUserData "bob" 45 ["Bronze Collaborator"] None 20)).
Proof.
  apply (apply_new_points_badges_match_score 100 10
           (mkUserData "bob" 45 ["Bronze Collaborator"] None 20) 50).
  - reflexivity.
  - apply (bool_decide_unpack _). vm_compute. reflexivity.
  - vm_compute. discriminate.
Defined.

(** ** The text-generation call, continued *)

(** X3. The test of line 279 looks at the text of the exception only: a
    first attempt of [call_gemini] that fails with any exception whose
    text has 429 somewhere in it, whatever kind of failure it is, is
    followed by a sleep of one second and a second request. *)
Theorem call_gemini_retries_any_429_text urlopen prompt a b :
  urlopen prompt 0%nat = Raise (a +:+ "429" +:+ b) →
  ∃ rest,
    (call_gemini urlopen prompt).2
    = Request 0 :: Sleep 1 :: Request 1 :: rest.
Proof.
  intros Hfirst. unfold call_gemini. cbn [seq gemini_loop]. rewrite Hfirst.
  assert (contains "429" (a +:+ "429" +:+ b) = true) as ->
    by (apply contains_substring; by exists a, b).
  destruct (urlopen prompt 1%nat) as [t1|e1];
    [|destruct (contains "429" e1);
      [destruct (urlopen prompt 2%nat) as [t2|e2];
        [|destruct (contains "429" e2)]|]];
    cbn [snd app]; by eexists.
Qed.

Lemma call_gemini_retries_any_429_text_witness :
  ∃ rest,
    (call_gemini truncated_body "prompt").2
    = Request 0 :: Sleep 1 :: Request 1 :: rest.
Proof.
  apply (call_gemini_retries_any_429_text truncated_body "prompt"
           "IncompleteRead(" " bytes read, 100 more expected)").
  reflexivity.
Defined.

Lemma gemini_loop_answer send text k : ∀ n start trace,
  (k < n)%nat →
  (∀ i, (start ≤ i < start + k)%nat → rate_limited (send i)) →
  send (start + k)%nat = Ok text →
  gemini_loop send (seq start n) trace
  = (text, trace ++ backoff start k ++ [Request (start + k)%nat]).
Proof.
  induction k as [|k IH]; intros n start trace Hk Hlim Hsend.
  - destruct n as [|n]; [lia|]. cbn [seq gemini_loop].
    rewrite Nat.add_0_r in *. by rewrite Hsend.
  - destruct n as [|n]; [lia|]. cbn [seq gemini_loop].
    pose proof (Hlim start ltac:(lia)) as H0.
    destruct (send start) as [t0|e0]; [done|]. simpl in H0. rewrite H0.
    rewrite (IH n (S start)).
    + rewrite backoff_S, <- !app_assoc.
      by replace (S start + k)%nat with (start + S k)%nat by lia.
    + lia.
    + intros i Hi. apply Hlim. lia.
    + by replace (S start + k)%nat with (start + S k)%nat by lia.
Qed.

(** X4. When attempt [k] (of the three) gets an answer after [k]
    rate-limited attempts, [call_gemini] returns that answer, having sent
    [k + 1] requests and slept [2 ** i] seconds after each of the first
    [k]; an answer to the first request costs no sleep. *)
Theorem call_gemini_answer urlopen prompt k text :
  (k < 3)%nat →
  (∀ i, (i < k)%nat → rate_limited (urlopen prompt i)) →
  urlopen prompt k = Ok text →
  call_gemini urlopen prompt = (text, backoff 0 k ++ [Request k]).
Proof.
  intros Hk Hlim Hsend. unfold call_gemini.
  rewrite (gemini_loop_answer _ text k) by
    (try done; intros i Hi; apply Hlim; lia).
  reflexivity.
Qed.

Lemma call_gemini_answer_witness :
  call_gemini (λ _ attempt, match attempt with
                            | O => Raise "HTTP Error 429: Too Many Requests"
                            | _ => Ok "Review one PR"
                            end) "prompt"
  = ("Review one PR", [Request 0; Sleep 1; Request 1]).
Proof.
  apply (call_gemini_answer _ "prompt" 1 "Review one PR").
  - lia.
  - intros i Hi. replace i with 0%nat by lia. reflexivity.
  - reflexivity.
Defined.

(** X5. Whatever the service does, one call of [call_gemini] sleeps at
    most 7 seconds in all, and it sleeps the full 7 seconds only when it
    gives up with the rate-limit message. *)
Theorem call_gemini_total_sleep urlopen prompt :
  0 ≤ total_sleep (call_gemini urlopen prompt).2 ≤ 7
  ∧ (total_sleep (call_gemini urlopen prompt).2 = 7 →
     (call_gemini urlopen prompt).1 = "Error: Gemini API rate limit exceeded.").
Proof.
  unfold call_gemini. cbn [seq gemini_loop].
  destruct (urlopen prompt 0%nat) as [t0|e0];
    [|destruct (contains "429" e0);
      [destruct (urlopen prompt 1%nat) as [t1|e1];
        [|destruct (contains "429" e1);
          [destruct (urlopen prompt 2%nat) as [t2|e2];
            [|destruct (contains "429" e2)]|]]|]];
    cbn; (split; [lia|]); intros H; (done || lia).
Qed.

Lemma call_gemini_total_sleep_witness :
  total_sleep (call_gemini always_429 "prompt").2 = 7
  ∧ (call_gemini always_429 "prompt").1
    = "Error: Gemini API rate limit exceeded.".
Proof.
  destruct (call_gemini_total_sleep always_429 "prompt") as [_ Hfull].
  split; [reflexivity|]. apply Hfull. reflexivity.
Defined.

(** ** Passes, one after the other *)

Lemma count_reviews_nonneg gh_user last_check prs n :
  count_reviews gh_user last_check prs = Ok n → 0 ≤ n.
Proof.
  revert n. induction prs as [|pr prs IH]; intros n; simpl.
  - intros [= <-]. lia.
  - destruct (get_reviews pr) as [reviews|]; simpl; [|done].
    destruct (count_reviews gh_user last_check prs) as [m|]; simpl; [|done].
    intros [= <-]. specialize (IH m eq_refl). unfold len. lia.
Qed.

Lemma fetch_new_points_nonneg r gh_user last_check new_points :
  counts_commits r →
  fetch_new_points (Some r) gh_user last_check = Ok new_points →
  0 ≤ new_points.
Proof.
  intros Hc. rewrite fetch_new_points_counts. simpl.
  destruct (get_commits_totalCount r gh_user last_check) as [c|] eqn:Ec;
    simpl; [|done].
  destruct (get_issues_comments r last_check) as [comments|]; simpl; [|done].
  destruct (get_pulls r) as [prs|]; simpl; [|done].
  destruct (count_reviews gh_user last_check (take 10 prs)) as [n|] eqn:En;
    simpl; [|done].
  intros [= <-]. apply Hc in Ec. apply count_reviews_nonneg in En.
  unfold len. lia.
Qed.

Lemma award_prefix threshold tag points (badges : list string) :
  badges `prefix_of` award threshold tag points badges.
Proof.
  destruct (award_appends threshold tag points badges) as (added & -> & _).
  by apply prefix_app_r.
Qed.

Lemma update_badges_prefix data :
  badges data `prefix_of` badges (update_badges data).
Proof.
  simpl. etrans; [apply award_prefix|]. etrans; apply award_prefix.
Qed.

Lemma grows_refl data : grows data data.
Proof. by repeat split. Qed.

Lemma grows_trans d1 d2 d3 : grows d1 d2 → grows d2 d3 → grows d1 d3.
Proof.
  intros (Hu1 & Hp1 & Hb1) (Hu2 & Hp2 & Hb2).
  split; [congruence|]. split; [lia | by etrans].
Qed.

Lemma apply_new_points_grows now new_points data :
  0 ≤ new_points → grows data (apply_new_points now new_points data).
Proof.
  intros Hnn. split; [apply apply_new_points_github_user|]. split.
  - rewrite apply_new_points_points.
    destruct (truthy (current_challenge data) && bool_decide (0 < new_points)); lia.
  - rewrite apply_new_points_badges.
    apply (update_badges_prefix (set_points (points data + new_points) data)).
Qed.

Lemma tick_data_grows self t data :
  counts_commits (tick_repo t) → grows data (tick_data self t data).
Proof.
  intros Hc. unfold tick_data, poll_data.
  destruct (repo self); [|apply grows_refl].
  destruct (fetch_new_points _ _ _) as [np|] eqn:E; [|apply grows_refl].
  apply apply_new_points_grows. by eapply fetch_new_points_nonneg.
Qed.

Lemma tick_data_watermark self t data :
  last_activity_check (tick_data self t data) = last_activity_check data
  ∨ last_activity_check (tick_data self t data) = tick_now t.
Proof.
  unfold tick_data, poll_data. destruct (repo self); [|by left].
  destruct (fetch_new_points _ _ _); [by right | by left].
Qed.

Lemma tick_get self t k :
  dict_get k (user_data (tick self t))
  = tick_data self t <$> dict_get k (user_data self).
Proof.
  unfold tick, tick_data. destruct (repo self) as [r|] eqn:Hr.
  - by rewrite poll_github_once_get.
  - destruct (tick_manual t).
    + rewrite poll_github_once_get, Hr.
      destruct (dict_get k (user_data self)); reflexivity.
    + by destruct (dict_get k (user_data self)).
Qed.

Lemma tick_keys self t : (user_data (tick self t)).*1 = (user_data self).*1.
Proof.
  unfold tick. destruct (repo self).
  - by rewrite poll_github_once_keys.
  - destruct (tick_manual t); [by rewrite poll_github_once_keys | done].
Qed.

(** X6. Over any sequence of timer and manual passes, no user is added,
    removed or moved: the keys of [user_data] stay what they were, in the
    same order. *)
Theorem run_ticks_keys ts self :
  (user_data (run_ticks ts self)).*1 = (user_data self).*1.
Proof.
  revert self. unfold run_ticks.
  induction ts as [|t ts IH]; intros self; simpl; [done|].
  by rewrite IH, tick_keys.
Qed.

(** X7. Over any sequence of passes against a client that reports no
    negative commit count, every entry keeps its GitHub user, its score
    never goes down, and its badge list is only extended at the end:
    scores and badges are monotone whatever fails in between. *)
Theorem run_ticks_grows ts self k data :
  (∀ t, t ∈ ts → counts_commits (tick_repo t)) →
  dict_get k (user_data self) = Some data →
  ∃ data',
    dict_get k (user_data (run_ticks ts self)) = Some data'
    ∧ grows data data'.
Proof.
  revert self data. unfold run_ticks.
  induction ts as [|t ts IH]; intros self data Hc Hget; simpl.
  - exists data. split; [done | apply grows_refl].
  - destruct (IH (tick self t) (tick_data self t data)) as (data' & Hget' & Hg).
    + intros t' Ht'. apply Hc. by right.
    + by rewrite tick_get, Hget.
    + exists data'. split; [done|].
      eapply grows_trans; [|exact Hg]. apply tick_data_grows, Hc. by left.
Qed.

(** X8. Over any sequence of passes whose timestamps do not go back (the
    first one not before the entry's watermark), the watermark of the entry
    never goes back: at the end it is the one the entry had or the
    timestamp of one of the passes. *)
Theorem run_ticks_watermark ts self k data :
  StronglySorted Z.le (last_activity_check data :: (tick_now <$> ts)) →
  dict_get k (user_data self) = Some data →
  ∃ data',
    dict_get k (user_data (run_ticks ts self)) = Some data'
    ∧ last_activity_check data ≤ last_activity_check data'
    ∧ (last_activity_check data' = last_activity_check data
       ∨ ∃ t, t ∈ ts ∧ last_activity_check data' = tick_now t).
Proof.
  revert self data. unfold run_ticks.
  induction ts as [|t ts IH]; intros self data Hts Hget; simpl.
  - exists data. split; [done|]. split; [lia | by left].
  - rewrite fmap_cons in Hts.
    apply StronglySorted_cons in Hts as [Hhead Htail].
    apply Forall_cons in Hhead as [Ht Hrest].
    destruct (IH (tick self t) (tick_data self t data))
      as (data' & Hget' & Hle & Hor).
    + destruct (tick_data_watermark self t data) as [-> | ->].
      * apply StronglySorted_cons in Htail as [_ Htail].
        by apply StronglySorted_cons.
      * done.
    + by rewrite tick_get, Hget.
    + exists data'. split; [done|].
      destruct (tick_data_watermark self t data) as [Hw|Hw];
        rewrite Hw in Hle, Hor.
      * split; [done|]. destruct Hor as [?|(t' & Ht' & ?)]; [by left|].
        right. exists t'. split; [by right | done].
      * split; [lia|]. right. destruct Hor as [?|(t' & Ht' & ?)].
        -- exists t. split; [by left | done].
        -- exists t'. split; [by right | done].
Qed.

Lemma run_ticks_watermark_witness :
  let data := mkUserData "alice" 0 [] None 10 in
  let self := mkBot (Some (repo_of alice_history)) [(1, data)] 0 empty_storage in
  let ts := [mkTick false 100 no_sqlite_error (failing_for "alice" alice_history);
             mkTick true 200 no_sqlite_error (repo_of alice_history)] in
  ∃ data',
    dict_get 1 (user_data (run_ticks ts self)) = Some data'
    ∧ 10 ≤ last_activity_check data'
    ∧ (last_activity_check data' = 10
       ∨ ∃ t, t ∈ ts ∧ last_activity_check data' = tick_now t).
Proof.
  intros data self ts.
  apply (run_ticks_watermark ts self 1 data); [|reflexivity].
  simpl. rewrite !StronglySorted_cons, !Forall_cons.
  repeat split; try lia; constructor.
Defined.

Lemma run_ticks_grows_witness :
  let data := mkUserData "alice" 0 [] None 10 in
  let self := mkBot (Some (repo_of alice_history)) [(1, data)] 0 empty_storage in
  let ts := [mkTick false 100 no_sqlite_error (repo_of alice_history);
             mkTick true 200 no_sqlite_error (repo_of late_review_history)] in
  ∃ data',
    dict_get 1 (user_data (run_ticks ts self)) = Some data' ∧ grows data data'.
Proof.
  intros data self ts.
  apply (run_ticks_grows ts self 1 data); [|reflexivity].
  intros t Ht author since c. subst ts.
  rewrite !elem_of_cons, elem_of_nil in Ht.
  destruct Ht as [->|[->|[]]]; simpl; intros [= <-]; unfold len; lia.
Defined.

(** ** Edge cases of a pass *)

Lemma poll_loop_no_repo sqlite_error now items : ∀ io,
  (poll_loop sqlite_error None now items io).1 = items
  ∧ users_table (poll_loop sqlite_error None now items io).2 = users_table io.
Proof.
  induction items as [|[k d] items IH]; intros io; [done|].
  rewrite poll_loop_cons. cbn [fst snd].
  destruct (IH (poll_user sqlite_error None now k d io).2) as [-> ->].
  by rewrite poll_user_data.
Qed.

(** X9. A manual [!update_stats] while no repository is set fails for
    every user separately: no entry and no row changes, yet the global
    watermark is advanced to the time of the pass. The timer, which tests
    [self.repo] first, leaves the bot as it is. *)
Theorem update_stats_without_repo sqlite_error now r self :
  repo self = None →
  let self' := tick self (mkTick true now sqlite_error r) in
  user_data self' = user_data self
  ∧ users_table (storage self') = users_table (storage self)
  ∧ last_global_check self' = now
  ∧ tick self (mkTick false now sqlite_error r) = self.
Proof.
  intros Hrepo. unfold tick. rewrite Hrepo. cbn [tick_manual tick_now tick_sqlite].
  unfold poll_github_once. rewrite Hrepo.
  pose proof (poll_loop_no_repo sqlite_error now (user_data self)
                (logger (LogInfo "Starting GitHub poll") (storage self))) as [H1 H2].
  destruct (poll_loop _ _ _ _ _) as [items io]. simpl in *.
  by rewrite H1, H2.
Qed.

Lemma update_stats_without_repo_witness :
  let self := mkBot None three_users 0 empty_storage in
  let self' := tick self (mkTick true 100 no_sqlite_error (repo_of (mkHistory [] [] []))) in
  user_data self' = three_users
  ∧ users_table (storage self') = ∅
  ∧ last_global_check self' = 100
  ∧ tick self (mkTick false 100 no_sqlite_error (repo_of (mkHistory [] [] []))) = self.
Proof.
  apply (update_stats_without_repo no_sqlite_error 100
           (repo_of (mkHistory [] [] []))
           (mkBot None three_users 0 empty_storage)).
  reflexivity.
Defined.

(** X10. Only the first ten pull requests of the listing are looked at:
    whatever follows them, even pull requests whose reviews cannot be
    fetched, changes neither the points nor the outcome of the fetch. *)
Theorem fetch_new_points_first_ten r prs extra gh_user last_check :
  get_pulls r = Ok prs →
  (10 ≤ length prs)%nat →
  fetch_new_points (Some (with_pulls (take 10 prs ++ extra) r)) gh_user last_check
  = fetch_new_points (Some r) gh_user last_check.
Proof.
  intros Hprs Hlen. unfold fetch_new_points, with_pulls. simpl. rewrite Hprs.
  destruct (get_commits_totalCount r gh_user last_check); simpl; [|done].
  destruct (get_issues_comments r last_check); simpl; [|done].
  rewrite take_app_le by (rewrite length_take; lia).
  by rewrite take_take, Nat.min_id.
Qed.

Lemma fetch_new_points_first_ten_witness :
  let prs := replicate 10 (mkPullRequest (Ok [mkReview "alice" 80])) in
  let r := with_pulls prs (repo_of alice_history) in
  fetch_new_points (Some (with_pulls (take 10 prs ++ [broken_pull]) r)) "alice" 0
  = fetch_new_points (Some r) "alice" 0.
Proof.
  intros prs r.
  apply (fetch_new_points_first_ten r prs [broken_pull] "alice" 0);
    [reflexivity | simpl; lia].
Defined.

(** X11. When SQLite refuses the write of a user whose fetch went through,
    the pass goes on and keeps the update in memory: the entry has the
    score raised by the new points (and the bonus) and the watermark
    [now], while the row of the user is what it was. If the row agreed
    with the entry before the pass and [now] is not the old watermark, the
    row and the entry disagree afterwards. *)
Theorem poll_github_once_save_failure
    sqlite_error now self k data new_points msg :
  NoDup (user_data self).*1 →
  dict_get k (user_data self) = Some data →
  fetch_new_points (repo self) (github_user data) (last_activity_check data)
  = Ok new_points →
  sqlite_error k = Some msg →
  let self' := poll_github_once sqlite_error now self in
  ∃ data',
    dict_get k (user_data self') = Some data'
    ∧ points data' = points data + new_points + challenge_bonus data new_points
    ∧ last_activity_check data' = now
    ∧ users_table (storage self') !! k = users_table (storage self) !! k
    ∧ last_global_check self' = now
    ∧ (users_table (storage self) !! k = Some data →
       last_activity_check data ≠ now →
       users_table (storage self') !! k ≠ Some data').
Proof.
  intros Hnd Hget Hfetch Hsql self'. subst self'.
  exists (apply_new_points now new_points data).
  assert (Hrow : users_table (storage (poll_github_once sqlite_error now self)) !! k
                 = users_table (storage self) !! k).
  { rewrite poll_github_once_row by done. rewrite Hget.
    unfold poll_saved. by rewrite Hfetch, Hsql. }
  split; [by entry_after_pass Hget|].
  split; [apply apply_new_points_points|]. split; [reflexivity|].
  split; [done|]. split; [apply poll_github_once_last_global_check|].
  intros Hsync Hnow. rewrite Hrow, Hsync. intros [= Heq].
  apply Hnow. by rewrite Heq.
Qed.

Lemma poll_github_once_save_failure_witness :
  let data := mkUserData "bob" 0 [] None 20 in
  let self := mkBot (Some (repo_of one_commit_history)) [(2, data)] 0
                    (mkStorage {[2 := data]} []) in
  let self' := poll_github_once disk_full 100 self in
  ∃ data',
    dict_get 2 (user_data self') = Some data'
    ∧ points data' = 0 + 10 + challenge_bonus data 10
    ∧ last_activity_check data' = 100
    ∧ users_table (storage self') !! 2 = users_table (storage self) !! 2
    ∧ last_global_check self' = 100
    ∧ users_table (storage self') !! 2 ≠ Some data'.
Proof.
  intros data self self'.
  destruct (poll_github_once_save_failure disk_full 100 self 2 data 10
              "database or disk is full") as (data' & H1 & H2 & H3 & H4 & H5 & H6).
  - simpl. apply NoDup_singleton.
  - reflexivity.
  - vm_compute. reflexivity.
  - reflexivity.
  - exists data'. repeat (split; [assumption|]).
    apply H6; [apply lookup_singleton_eq | simpl; lia].
Defined.

(** ** Memory and table *)

Lemma dict_get_set_ne {A} k k' (v : A) items :
  k ≠ k' → dict_get k' (dict_set k v items) = dict_get k' items.
Proof.
  intros Hne. induction items as [|[k0 v0] items IH]; simpl.
  - by rewrite bool_decide_eq_false_2.
  - case_bool_decide as Hk; simpl.
    + subst k0. by rewrite !bool_decide_eq_false_2.
    + by rewrite IH.
Qed.

Lemma dict_set_keys {A} k (v : A) items :
  (dict_set k v items).*1
  = if bool_decide (k ∈ items.*1) then items.*1 else items.*1 ++ [k].
Proof.
  induction items as [|[k0 v0] items IH].
  - case_bool_decide as Hin; [by apply elem_of_nil in Hin | done].
  - rewrite fmap_cons. cbn [dict_set fst].
    destruct (decide (k0 = k)) as [->|Hk].
    + rewrite bool_decide_eq_true_2 by done.
      rewrite bool_decide_eq_true_2 by apply list_elem_of_here. done.
    + rewrite bool_decide_eq_false_2 by done. rewrite fmap_cons, IH. cbn [fst].
      destruct (decide (k ∈ items.*1)) as [Hin|Hin].
      * rewrite bool_decide_eq_true_2 by done.
        by rewrite bool_decide_eq_true_2 by by apply list_elem_of_further.
      * rewrite bool_decide_eq_false_2 by done.
        rewrite bool_decide_eq_false_2; [done|].
        rewrite elem_of_cons. intros [?|?]; congruence.
Qed.

Lemma dict_set_NoDup {A} k (v : A) items :
  NoDup items.*1 → NoDup (dict_set k v items).*1.
Proof.
  intros Hnd. rewrite dict_set_keys. case_bool_decide as Hin; [done|].
  apply NoDup_app. split; [done|]. split; [|apply NoDup_singleton].
  intros x Hx Hk. apply list_elem_of_singleton in Hk. by subst x.
Qed.

Lemma dict_get_elem_of {A} k (v : A) items :
  dict_get k items = Some v → (k, v) ∈ items.
Proof.
  induction items as [|[k0 v0] items IH]; simpl; [done|].
  case_bool_decide as Hk.
  - intros [= ->]. subst k0. apply list_elem_of_here.
  - intros H. apply list_elem_of_further. auto.
Qed.

Lemma elem_of_dict_get {A} k (v : A) items :
  NoDup items.*1 → (k, v) ∈ items → dict_get k items = Some v.
Proof.
  induction items as [|[k0 v0] items IH]; simpl.
  - intros _ H. by apply elem_of_nil in H.
  - rewrite NoDup_cons. intros [Hnotin Hnd]. rewrite elem_of_cons.
    intros [[= -> ->]|Hin].
    + by rewrite bool_decide_eq_true_2.
    + rewrite bool_decide_eq_false_2; [auto|].
      intros ->. apply Hnotin. apply list_elem_of_fmap. by exists (k, v).
Qed.

Lemma save_user_data_table k data io :
  users_table (save_user_data no_sqlite_error k data io)
  = <[k := data]> (users_table io).
Proof. reflexivity. Qed.

Lemma dict_set_fresh {A} k (v : A) items :
  k ∉ items.*1 → dict_set k v items = items ++ [(k, v)].
Proof.
  induction items as [|[k0 v0] items IH]; [done|].
  rewrite fmap_cons, not_elem_of_cons. simpl. intros [Hne Hnotin].
  rewrite bool_decide_eq_false_2 by congruence. by rewrite IH.
Qed.

Lemma load_rows_saved last_global_check items : ∀ tail acc,
  NoDup (acc.*1 ++ items.*1) →
  load_rows last_global_check ((row_of <$> items) ++ tail) acc
  = load_rows last_global_check tail (acc ++ items).
Proof.
  induction items as [|[k d] items IH]; intros tail acc Hnd.
  - by rewrite app_nil_r.
  - rewrite fmap_cons, <- app_comm_cons. cbn [load_rows row_of fst snd
      row_last_activity_check row_badges row_discord_id row_github_user
      row_points row_current_challenge default].
    rewrite fmap_cons in Hnd. simpl in Hnd.
    apply NoDup_app in Hnd as (Hacc & Hdisj & Hitems).
    apply NoDup_cons in Hitems as [Hk Hitems].
    rewrite dict_set_fresh by (intros Hin; apply (Hdisj k Hin), list_elem_of_here).
    destruct d as [gh p b c w]. simpl. rewrite IH.
    + by rewrite <- app_assoc.
    + rewrite fmap_app. simpl. rewrite <- app_assoc. simpl.
      apply NoDup_app. split; [done|]. split; [|by apply NoDup_cons].
      intros x Hx. by apply Hdisj.
Qed.

Lemma load_user_data_fetchall last_global_check io :
  load_user_data last_global_check (fetchall io)
  = (map_to_list (users_table io), LogInfo "User data loaded from database").
Proof.
  unfold load_user_data, fetchall.
  rewrite <- (app_nil_r (row_of <$> _)), load_rows_saved; [done|].
  apply NoDup_fst_map_to_list.
Qed.

Lemma init_user_data clock_now clock_time io :
  user_data (init clock_now clock_time io) = map_to_list (users_table io).
Proof. unfold init. by rewrite load_user_data_fetchall. Qed.

(** X12. Starting the bot on a table that [save_user_data] has written
    loads every row: [load_user_data] goes through its rows without
    reaching its [except], the entry of a key is the row of that key, no
    key occurs twice, and memory agrees with the table. In particular an
    entry that was saved is the entry the next start finds. *)
Theorem init_loads_table clock_now clock_time io :
  let self := init clock_now clock_time io in
  (load_user_data None (fetchall io)).2
  = LogInfo "User data loaded from database"
  ∧ (∀ k, dict_get k (user_data self) = users_table io !! k)
  ∧ NoDup (user_data self).*1
  ∧ in_sync self
  ∧ ∀ k data,
      dict_get k (user_data (init clock_now clock_time
                               (save_user_data no_sqlite_error k data io)))
      = Some data.
Proof.
  intros self.
  assert (Hnd : ∀ m : gmap Z UserData, NoDup (map_to_list m).*1)
    by (intros m; apply NoDup_fst_map_to_list).
  assert (Hget : ∀ (m : gmap Z UserData) k, dict_get k (map_to_list m) = m !! k).
  { intros m k. destruct (m !! k) as [d|] eqn:E.
    - apply elem_of_dict_get; [apply Hnd|]. by apply elem_of_map_to_list.
    - destruct (dict_get k (map_to_list m)) as [d|] eqn:E'; [|done].
      apply dict_get_elem_of, elem_of_map_to_list in E'. congruence. }
  split; [by rewrite load_user_data_fetchall|].
  subst self. rewrite !init_user_data.
  split; [intros k; apply Hget|]. split; [apply Hnd|]. split.
  - intros k data. rewrite init_user_data, Hget. done.
  - intros k data. rewrite init_user_data, Hget. apply lookup_insert_eq.
Qed.

Lemma poll_github_once_in_sync sqlite_error now self :
  (∀ k, sqlite_error k = None) →
  NoDup (user_data self).*1 → in_sync self →
  in_sync (poll_github_once sqlite_error now self).
Proof.
  intros Hsql Hnd Hsync k data'.
  rewrite poll_github_once_get, poll_github_once_row by done.
  destruct (dict_get k (user_data self)) as [data|] eqn:Hget; [|done].
  simpl. intros [= <-]. unfold poll_saved, poll_data. rewrite Hsql.
  destruct (fetch_new_points _ _ _); [done | by apply Hsync].
Qed.

Lemma dict_set_in_sync sqlite_error k data self io' :
  sqlite_error k = None →
  in_sync self →
  users_table io' = users_table (save_user_data sqlite_error k data (storage self)) →
  in_sync (mkBot (repo self) (dict_set k data (user_data self))
                 (last_global_check self) io').
Proof.
  intros Hsql Hsync Htable k' d. simpl. rewrite Htable.
  unfold save_user_data. rewrite Hsql. simpl.
  destruct (decide (k = k')) as [->|Hne].
  - rewrite dict_get_set, lookup_insert_eq. done.
  - rewrite dict_get_set_ne, lookup_insert_ne by done. apply Hsync.
Qed.

Lemma run_command_in_sync sqlite_error urlopen self c :
  (∀ k, sqlite_error k = None) →
  NoDup (user_data self).*1 ∧ in_sync self →
  NoDup (user_data (run_command sqlite_error urlopen self c)).*1
  ∧ in_sync (run_command sqlite_error urlopen self c).
Proof.
  intros Hsql [Hnd Hsync].
  destruct c as [name [r|msg]|a an gh|a an act]; simpl.
  - done.
  - done.
  - unfold link_github. destruct (repo self) eqn:Hr; [|done]. split.
    + by apply dict_set_NoDup.
    + rewrite <- Hr. by apply (dict_set_in_sync sqlite_error).
  - unfold my_challenge. destruct (repo self) eqn:Hr; [|done].
    destruct (dict_get a (user_data self)); [|done]. split.
    + by apply dict_set_NoDup.
    + rewrite <- Hr. by apply (dict_set_in_sync sqlite_error).
Qed.

Lemma tick_in_sync self t :
  (∀ k, tick_sqlite t k = None) →
  NoDup (user_data self).*1 ∧ in_sync self →
  NoDup (user_data (tick self t)).*1 ∧ in_sync (tick self t).
Proof.
  intros Hsql [Hnd Hsync]. split; [by rewrite tick_keys|].
  unfold tick. destruct (repo self).
  - by apply poll_github_once_in_sync.
  - destruct (tick_manual t); [by apply poll_github_once_in_sync | done].
Qed.

(** X13. As long as SQLite commits every write, memory and table never
    part: after any sequence of [!set_repo], [!link_github],
    [!my_challenge], timer passes and [!update_stats] following the start
    of the bot, every entry of [user_data] is what its row holds, and no
    key occurs twice. *)
Theorem run_events_in_sync sqlite_error urlopen evs clock_now clock_time io :
  (∀ k, sqlite_error k = None) →
  Forall commits_writes evs →
  let self := run_events sqlite_error urlopen evs (init clock_now clock_time io) in
  NoDup (user_data self).*1 ∧ in_sync self.
Proof.
  intros Hsql Hevs.
  assert (Hinit : NoDup (user_data (init clock_now clock_time io)).*1
                  ∧ in_sync (init clock_now clock_time io)).
  { rewrite init_user_data. split; [apply NoDup_fst_map_to_list|].
    intros k data. rewrite init_user_data. intros Hk.
    by apply dict_get_elem_of, elem_of_map_to_list in Hk. }
  revert Hinit. generalize (init clock_now clock_time io).
  unfold run_events. induction Hevs as [|ev evs Hev Hevs IH]; intros self Hinv.
  - done.
  - simpl. apply IH. destruct ev as [c|t]; simpl.
    + by apply run_command_in_sync.
    + by apply tick_in_sync.
Qed.

Lemma run_events_in_sync_witness :
  let self :=
    run_events no_sqlite_error always_429
      [Chat (SetRepo "octo/demo" (Ok (repo_of alice_history)));
       Chat (LinkGithub 1 "Alice" "alice");
       Chat (MyChallenge 1 "Alice" "Commits: 2, Issues created: 0, PRs: 0");
       Pass (mkTick false 100 no_sqlite_error (repo_of alice_history));
       Pass (mkTick true 200 no_sqlite_error (failing_for "alice" alice_history))]
      (init 0 3 empty_storage) in
  NoDup (user_data self).*1 ∧ in_sync self.
Proof.
  apply (run_events_in_sync no_sqlite_error always_429 _ 0 3 empty_storage).
  - reflexivity.
  - repeat constructor.
Defined.

(** ** Chat commands *)

(** X14. [!link_github] needs a repository: without one it changes
    nothing. With one, the author's entry is a fresh one (score 0, no
    badge, no challenge, the global watermark) whatever the author had
    before, so linking again wipes the score and the badges; every other
    entry and the global watermark stay. *)
Theorem link_github_resets sqlite_error author_id author_name github_username self :
  (repo self = None →
   link_github sqlite_error author_id author_name github_username self = self)
  ∧ (repo self ≠ None →
     let self' :=
       link_github sqlite_error author_id author_name github_username self in
     dict_get author_id (user_data self')
     = Some (mkUserData github_username 0 [] None (last_global_check self))
     ∧ (∀ k, k ≠ author_id →
             dict_get k (user_data self') = dict_get k (user_data self))
     ∧ last_global_check self' = last_global_check self).
Proof.
  unfold link_github. destruct (repo self) as [r|]; split; try done.
  intros _. simpl. split; [apply dict_get_set|]. split; [|done].
  intros k Hk. by apply dict_get_set_ne.
Qed.

Lemma link_github_resets_witness :
  let self := mkBot (Some (repo_of alice_history)) three_users 77 empty_storage in
  let self' := link_github no_sqlite_error 2 "Bob" "bob" self in
  dict_get 2 (user_data self') = Some (mkUserData "bob" 0 [] None 77)
  ∧ (∀ k, k ≠ 2 → dict_get k (user_data self') = dict_get k (user_data self))
  ∧ last_global_check self' = 77.
Proof.
  intros self.
  destruct (link_github_resets no_sqlite_error 2 "Bob" "bob" self) as [_ H].
  apply H. discriminate.
Defined.

(** X15. A chat command touches nobody else: whatever the command and
    whatever fails in it, the entry of every user other than its author
    and the global watermark are what they were, and [!set_repo] changes
    no entry at all. *)
Theorem run_command_frame sqlite_error urlopen self c k :
  command_author c ≠ Some k →
  dict_get k (user_data (run_command sqlite_error urlopen self c))
  = dict_get k (user_data self)
  ∧ last_global_check (run_command sqlite_error urlopen self c)
    = last_global_check self.
Proof.
  intros Hk. split; [|apply run_command_last_global_check].
  destruct c as [name [r|msg]|a an gh|a an act]; simpl in *; try done.
  - unfold link_github. destruct (repo self); [|done]. simpl.
    apply dict_get_set_ne. congruence.
  - unfold my_challenge. destruct (repo self); [|done].
    destruct (dict_get a (user_data self)); [|done]. simpl.
    apply dict_get_set_ne. congruence.
Qed.

Lemma run_command_frame_witness :
  let self := mkBot (Some (repo_of alice_history)) three_users 77 empty_storage in
  let c := MyChallenge 2 "Bob" "Commits: 1, Issues created: 0, PRs: 0" in
  dict_get 1 (user_data (run_command no_sqlite_error always_429 self c))
  = dict_get 1 (user_data self)
  ∧ last_global_check (run_command no_sqlite_error always_429 self c) = 77.
Proof.
  intros self c.
  apply (run_command_frame no_sqlite_error always_429 self c 1).
  discriminate.
Defined.

Lemma call_gemini_down urlopen prompt :
  service_down urlopen →
  (call_gemini urlopen prompt).1 = "Error: Gemini API rate limit exceeded."
  ∨ ∃ e, (call_gemini urlopen prompt).1 = "Error calling AI: " +:+ e.
Proof.
  intros Hdown. unfold call_gemini. cbn [seq gemini_loop].
  destruct (Hdown prompt 0%nat) as [e0 ->].
  destruct (contains "429" e0); [|right; by exists e0].
  destruct (Hdown prompt 1%nat) as [e1 ->].
  destruct (contains "429" e1); [|right; by exists e1].
  destruct (Hdown prompt 2%nat) as [e2 ->].
  destruct (contains "429" e2); [by left | right; by exists e2].
Qed.

(** X16. When the text-generation service is down, [!my_challenge] still
    stores a challenge: the error message that [call_gemini] returned. It
    is a non-empty text, so the next pass that sees new activity of the
    user clears it and pays the 20 points of a completed challenge. *)
Theorem my_challenge_service_down
    sqlite_error urlopen author_id author_name activity self data
    sqlite_error' now new_points :
  service_down urlopen →
  repo self ≠ None →
  dict_get author_id (user_data self) = Some data →
  fetch_new_points (repo self) (github_user data) (last_activity_check data)
  = Ok new_points →
  0 < new_points →
  let self1 :=
    my_challenge sqlite_error urlopen author_id author_name activity self in
  (∃ challenge,
     dict_get author_id (user_data self1)
     = Some (set_current_challenge (Some challenge) data)
     ∧ challenge ≠ "")
  ∧ ∃ data',
      dict_get author_id (user_data (poll_github_once sqlite_error' now self1))
      = Some data'
      ∧ current_challenge data' = None
      ∧ points data' = points data + new_points + 20.
Proof.
  intros Hdown Hrepo Hget Hfetch Hpos self1.
  assert (Hch : truthy (Some (generate_challenge urlopen activity)) = true).
  { unfold generate_challenge.
    destruct (call_gemini_down urlopen
                ("Based on this GitHub user activity: " +:+ activity +:+
                 ". Generate a personalized, engaging challenge to boost collaboration, e.g., 'Review one PR to earn a collaborator badge'. Keep it short.")
                Hdown) as [-> | [e ->]]; reflexivity. }
  assert (Hget1 : dict_get author_id (user_data self1)
            = Some (set_current_challenge
                      (Some (generate_challenge urlopen activity)) data)).
  { subst self1. unfold my_challenge.
    destruct (repo self); [|done]. rewrite Hget. simpl. apply dict_get_set. }
  assert (Hrepo1 : repo self1 = repo self).
  { subst self1. unfold my_challenge.
    destruct (repo self); [|done]. by rewrite Hget. }
  split.
  { exists (generate_challenge urlopen activity). split; [done|].
    intros Hempty. by rewrite Hempty in Hch. }
  exists (apply_new_points now new_points
            (set_current_challenge
               (Some (generate_challenge urlopen activity)) data)).
  split.
  { rewrite poll_github_once_get, Hget1, Hrepo1. simpl. f_equal.
    apply poll_data_ok. exact Hfetch. }
  rewrite apply_new_points_current_challenge, apply_new_points_points.
  cbn [current_challenge set_current_challenge points].
  rewrite Hch, bool_decide_eq_true_2 by done. simpl. split; [done | lia].
Qed.

Lemma my_challenge_service_down_witness :
  let data := mkUserData "bob" 0 [] None 20 in
  let self := mkBot (Some (repo_of one_commit_history)) [(2, data)] 0
                    empty_storage in
  let self1 := my_challenge no_sqlite_error always_429 2 "Bob" "Commits: 1" self in
  (∃ challenge,
     dict_get 2 (user_data self1)
     = Some (set_current_challenge (Some challenge) data)
     ∧ challenge ≠ "")
  ∧ ∃ data',
      dict_get 2 (user_data (poll_github_once no_sqlite_error 100 self1))
      = Some data'
      ∧ current_challenge data' = None
      ∧ points data' = 0 + 10 + 20.
Proof.
  intros data self self1.
  apply (my_challenge_service_down no_sqlite_error always_429 2 "Bob"
           "Commits: 1" self data no_sqlite_error 100 10).
  - intros prompt attempt. by eexists.
  - discriminate.
  - reflexivity.
  - vm_compute. reflexivity.
  - lia.
Defined.

(** ** The leaderboard *)

Lemma insert_by_points_perm x l : insert_by_points x l ≡ₚ x :: l.
Proof.
  induction l as [|y l IH]; simpl; [done|].
  case_bool_decide; [done|]. rewrite IH. apply Permutation_swap.
Qed.



Lemma sorted_by_points_perm items : sorted_by_points items ≡ₚ items.
Proof.
  unfold sorted_by_points. induction items as [|x items IH]; [done|].
  simpl. by rewrite insert_by_points_perm, IH.
Qed.









Example sorted_by_points_ties :
  sorted_by_points [(1, mkUserData "alice" 10 [] None 0);
                    (2, mkUserData "bob" 100 [] None 0);
                    (3, mkUserData "carol" 10 [] None 0)]
  = [(2, mkUserData "bob" 100 [] None 0);
     (1, mkUserData "alice" 10 [] None 0);
     (3, mkUserData "carol" 10 [] None 0)].
Proof. vm_compute. reflexivity. Qed.

Lemma leaderboard_loop_ok fetch_user sorted_users : ∀ idx lb_text,
  (∃ text, leaderboard_loop fetch_user idx sorted_users lb_text = Ok text)
  ↔ Forall (λ e : Z * UserData, ∃ name, fetch_user e.1 = Ok name) sorted_users.
Proof.
  induction sorted_users as [|[k d] l IH]; intros idx lb_text; simpl.
  - split; [constructor | by eexists].
  - rewrite Forall_cons. simpl.
    destruct (fetch_user k) as [name|msg]; simpl.
    + rewrite IH. split; [intros H; split; [by eexists | done] | by intros [_ H]].
    + split; [intros [text H]; discriminate H | intros [[name H] _]; discriminate H].
Qed.

(** X18. [!leaderboard] answers "No users linked yet." when nobody is
    linked. Otherwise it sends the table, and logs that it did, exactly
    when the Discord lookup succeeds for every linked user; when the
    lookup of one user raises, the exception leaves the command, nothing
    is sent and the bot is unchanged. *)
Theorem leaderboard_outcome fetch_user self :
  (user_data self = [] →
   leaderboard fetch_user self = (Ok "No users linked yet.", self))
  ∧ (user_data self ≠ [] →
     Forall (λ e : Z * UserData, ∃ name, fetch_user e.1 = Ok name)
            (user_data self) →
     ∃ text,
       leaderboard fetch_user self
       = (Ok text,
          mkBot (repo self) (user_data self) (last_global_check self)
                (logger (LogInfo "Displayed leaderboard") (storage self))))
  ∧ (∀ k data msg,
       (k, data) ∈ user_data self → fetch_user k = Raise msg →
       ∃ msg', leaderboard fetch_user self = (Raise msg', self)).
Proof.
  pose proof (sorted_by_points_perm (user_data self)) as Hperm.
  pose proof (leaderboard_loop_ok fetch_user (sorted_by_points (user_data self))
                1 ("Leaderboard:" +:+ newline)) as Hloop.
  rewrite Hperm in Hloop. unfold leaderboard.
  split; [by intros ->|]. split.
  - intros Hne Hall. apply Hloop in Hall as [text ->].
    destruct (user_data self); [done|]. by exists text.
  - intros k data msg Hin Hraise.
    destruct (user_data self) as [|e l] eqn:Hud; [by apply elem_of_nil in Hin|].
    destruct (leaderboard_loop _ _ _ _) as [text|msg']; [|by exists msg'].
    assert (Hall : Forall (λ e : Z * UserData, ∃ name, fetch_user e.1 = Ok name)
                          (e :: l)) by (apply Hloop; by exists text).
    rewrite Forall_forall in Hall. destruct (Hall _ Hin) as [name Hname].
    simpl in Hname. congruence.
Qed.

Lemma leaderboard_outcome_witness :
  let self := mkBot None three_users 0 empty_storage in
  (∃ text,
     leaderboard (λ _, Ok "someone") self
     = (Ok text,
        mkBot None three_users 0
              (logger (LogInfo "Displayed leaderboard") empty_storage)))
  ∧ ∃ msg',
      leaderboard (λ k, if bool_decide (k = 3) then Raise "Unknown User"
                        else Ok "someone") self
      = (Raise msg', self).
Proof.
  intros self. split.
  - destruct (leaderboard_outcome (λ _, Ok "someone") self) as (_ & Hok & _).
    apply Hok; [discriminate|].
    apply Forall_forall. intros e _. by eexists.
  - destruct (leaderboard_outcome
                (λ k, if bool_decide (k = 3) then Raise "Unknown User"
                      else Ok "someone") self) as (_ & _ & Hraise).
    apply (Hraise 3 (mkUserData "carol" 7 [] None 30) "Unknown User").
    + do 2 apply list_elem_of_further. apply list_elem_of_here.
    + reflexivity.
Defined.

(** ** The pass of [demo.py] *)

Lemma demo_poll_loop_app the_repo now visited k data rest msg :
  Forall (λ e : Z * UserData,
            ∃ new_points,
              fetch_new_points the_repo (github_user e.2)
                               (last_activity_check e.2) = Ok new_points)
         visited →
  fetch_new_points the_repo (github_user data) (last_activity_check data)
  = Raise msg →
  Demo.poll_loop the_repo now (visited ++ (k, data) :: rest)
  = ((prod_map id (poll_data the_repo now) <$> visited) ++ (k, data) :: rest,
     Some msg).
Proof.
  intros Hvisited Hraise.
  induction Hvisited as [|[k0 d0] visited [np Hnp] _ IH].
  - simpl. rewrite Hraise. reflexivity.
  - simpl in Hnp. rewrite fmap_cons, <- !app_comm_cons.
    cbn [Demo.poll_loop]. rewrite Hnp, IH.
    assert (prod_map id (poll_data the_repo now) (k0, d0)
            = (k0, apply_new_points now np d0)) as ->; [|done].
    unfold prod_map, poll_data. simpl. by rewrite Hnp.
Qed.

(** X19. In [demo.py] nothing catches a failing fetch: when the fetch of
    one user raises, the exception leaves [poll_github_once]; the users
    visited before keep their update, the failing user and every user
    after are not touched, and the global watermark is not advanced. *)
Theorem demo_poll_github_once_aborts_at
    the_repo now lgc visited k data rest msg :
  Forall (λ e : Z * UserData,
            ∃ new_points,
              fetch_new_points the_repo (github_user e.2)
                               (last_activity_check e.2) = Ok new_points)
         visited →
  fetch_new_points the_repo (github_user data) (last_activity_check data)
  = Raise msg →
  Demo.poll_github_once now
    (Demo.mkBot the_repo (visited ++ (k, data) :: rest) lgc)
  = (Demo.mkBot the_repo
       ((prod_map id (poll_data the_repo now) <$> visited) ++ (k, data) :: rest)
       lgc,
     Some msg).
Proof.
  intros Hvisited Hraise. unfold Demo.poll_github_once. simpl.
  by rewrite (demo_poll_loop_app _ _ _ _ _ _ msg Hvisited Hraise).
Qed.

Lemma demo_poll_github_once_aborts_at_witness :
  Demo.poll_github_once 100
    (Demo.mkBot (Some (failing_for "bob" alice_history))
       ([(1, mkUserData "alice" 0 [] None 10)]
        ++ (2, mkUserData "bob" 45 ["Bronze Collaborator"] (Some "Review one PR") 20)
        :: [(3, mkUserData "carol" 7 [] None 30)]) 0)
  = (Demo.mkBot (Some (failing_for "bob" alice_history))
       ((prod_map id (poll_data (Some (failing_for "bob" alice_history)) 100)
           <$> [(1, mkUserData "alice" 0 [] None 10)])
        ++ (2, mkUserData "bob" 45 ["Bronze Collaborator"] (Some "Review one PR") 20)
        :: [(3, mkUserData "carol" 7 [] None 30)]) 0,
     Some "502 Server Error").
Proof.
  apply demo_poll_github_once_aborts_at.
  - apply Forall_cons. split; [|constructor]. exists 40. vm_compute. reflexivity.
  - vm_compute. reflexivity.
Defined.

Lemma demo_poll_github_once_agrees_witness :
  let demo' :=
    (Demo.poll_github_once 100
       (Demo.mkBot (Some (repo_of alice_history)) three_users 0)).1 in
  let bot' :=
    poll_github_once no_sqlite_error 100
      (mkBot (Some (repo_of alice_history)) three_users 0 empty_storage) in
  dict_get 2 (Demo.user_data demo') = dict_get 2 (user_data bot')
  ∧ Demo.last_global_check demo' = last_global_check bot'.
Proof.
  apply (demo_poll_github_once_agrees no_sqlite_error 100
           (Some (repo_of alice_history)) three_users 0 empty_storage 2).
  vm_compute. reflexivity.
Defined.

(** ** Loading the table *)

(** X21. What [save_user_data] writes, [load_user_data] reads back: from
    the rows of a set of entries with distinct keys it rebuilds exactly
    those entries, in the order of the rows, and logs success. *)
Theorem load_user_data_saved last_global_check items :
  NoDup items.*1 →
  load_user_data last_global_check (row_of <$> items)
  = (items, LogInfo "User data loaded from database").
Proof.
  intros Hnd. unfold load_user_data.
  rewrite <- (app_nil_r (row_of <$> items)), load_rows_saved by done.
  reflexivity.
Qed.

Lemma load_user_data_saved_witness :
  load_user_data None (row_of <$> three_users)
  = (three_users, LogInfo "User data loaded from database").
Proof.
  apply load_user_data_saved. unfold three_users. simpl.
  rewrite !NoDup_cons, !not_elem_of_cons.
  repeat split; auto using not_elem_of_nil, NoDup_nil_2; lia.
Defined.

(** X22. [__init__] loads the table before it assigns
    [last_global_check]. A row whose [last_activity_check] is NULL or
    empty makes [load_user_data] read the missing attribute: the load
    stops there, keeps the entries of the rows before it, drops that row
    and every row after it, and only logs the error. *)
Theorem load_user_data_stops_at_null items bad rest :
  NoDup items.*1 →
  row_last_activity_check bad = None →
  load_user_data None ((row_of <$> items) ++ bad :: rest)
  = (items,
     LogError "Failed to load user data: 'GamifiedGitHubDiscordBot' object has no attribute 'last_global_check'").
Proof.
  intros Hnd Hnull. unfold load_user_data.
  rewrite load_rows_saved by done. simpl. by rewrite Hnull.
Qed.

Lemma load_user_data_stops_at_null_witness :
  load_user_data None
    ((row_of <$> [(1, mkUserData "alice" 0 [] None 10)])
     ++ mkRow 2 "bob" 45 None None None
     :: [row_of (3, mkUserData "carol" 7 [] None 30)])
  = ([(1, mkUserData "alice" 0 [] None 10)],
     LogError "Failed to load user data: 'GamifiedGitHubDiscordBot' object has no attribute 'last_global_check'").
Proof.
  apply load_user_data_stops_at_null; [|reflexivity].
  simpl. apply NoDup_singleton.
Defined.
